(** * Release tooling of the redwood repository

    Two artefacts are embedded here:

    - [.github/workflows/require-release-label.yml], the workflow that
      requires a release label on every pull request
      (module [RequireReleaseLabel]);
    - [tasks/release/validateMilestonesCommand.mjs], the operator-run
      [validate-milestones] command (module [ValidateMilestones]).

    JavaScript strings are [string]s, JavaScript numbers that the script
    only compares or prints are [Z], a value that may be [undefined] is an
    [option], the object used as a dictionary is a [gmap string _] holding
    what a property read returns, and the set of labels of a pull request
    is a [gset string]. *)

From Stdlib Require Import ZArith Ascii String.
From stdpp Require Import base strings list gmap.

#[local] Open Scope Z_scope.

(** ** Fragments of the JavaScript standard library used by the sources *)

Module Js.

(** The string written ['\n'] in JavaScript. *)
Definition newline : string := String "010" EmptyString.

(** [s.split(sep)] for a separator of one character: the result is never
    empty, [""] splits to [[""]] and a trailing separator leaves a
    trailing [""]. *)
Fixpoint split (sep : ascii) (s : string) : list string :=
  match s with
  | EmptyString => [EmptyString]
  | String c rest =>
      if Ascii.eqb c sep then EmptyString :: split sep rest
      else match split sep rest with
           | [] => [String c EmptyString]
           | piece :: pieces => String c piece :: pieces
           end
  end.

(** [arr.shift()] as an expression: the first element, [undefined] on an
    empty array. *)
Definition shift {A} (arr : list A) : option A := head arr.

(** [arr.join(sep)] on an array of strings. *)
Definition join (sep : string) (arr : list string) : string :=
  String.concat sep arr.

(** [arr.includes(x)] on an array of strings. *)
Definition includes (arr : list string) (x : string) : bool :=
  existsb (String.eqb x) arr.

(** White space removed by [s.trim()], restricted to ASCII. *)
Definition is_white (c : ascii) : bool :=
  let n := nat_of_ascii c in
  (Nat.eqb n 32 || (Nat.leb 9 n && Nat.leb n 13))%bool.

Fixpoint trimStart (s : string) : string :=
  match s with
  | EmptyString => EmptyString
  | String c rest => if is_white c then trimStart rest else s
  end.

(** [trimEnd] keeps a character when it is not white space or when
    something is kept after it. *)
Fixpoint trimEnd (s : string) : string :=
  match s with
  | EmptyString => EmptyString
  | String c rest =>
      match trimEnd rest with
      | EmptyString => if is_white c then EmptyString else String c EmptyString
      | kept => String c kept
      end
  end.

Definition trim (s : string) : string := trimEnd (trimStart s).

(** The property key a value is converted to in [obj[key]]: a string is
    its own key, [undefined] is the key ["undefined"]. *)
Definition toPropertyKey (key : option string) : string :=
  default "undefined" key.

(** What a property of the dictionary object can hold: a string that
    the script stored, or the value of the property of that name that
    every object inherits from [Object.prototype] (a function, or the
    prototype itself for [__proto__]). *)
Inductive Value :=
| Str (s : string)
| Inherited (name : string).

(** The names of the properties of [Object.prototype]. *)
Definition Object_prototype : list string :=
  ["constructor"; "__defineGetter__"; "__defineSetter__"; "hasOwnProperty";
   "__lookupGetter__"; "__lookupSetter__"; "isPrototypeOf";
   "propertyIsEnumerable"; "toString"; "valueOf"; "__proto__";
   "toLocaleString"].

(** An object is modelled by what reading its properties returns:
    [obj !! key] is [obj[key]], and [None] is [undefined].  The object
    literal [{}] has no property of its own, but reading an inherited
    name is not [undefined]. *)
Definition empty_object : gmap string Value :=
  list_to_map ((λ name, (name, Inherited name)) <$> Object_prototype).

(** [obj[key] = value] for a string [value]: an own property is created
    or overwritten and shadows an inherited one, except that assigning a
    string to [__proto__] is ignored by the inherited setter. *)
Definition set (obj : gmap string Value) (key value : string)
  : gmap string Value :=
  if String.eqb key "__proto__" then obj else <[key := Str value]> obj.

(** Truthiness of a value that is a string or [undefined]. *)
Definition truthy (v : option string) : bool :=
  match v with
  | None => false
  | Some EmptyString => false
  | Some _ => true
  end.

End Js.

(** ** The release-label workflow *)

Module RequireReleaseLabel.

(** The [with:] block of the only step of the job. *)
Inductive Mode := exactly.

Record With := {
  mode : Mode;
  count : nat;
  labels : string;
}.

(** [jobs.require-release-label.steps[0].with] *)
Definition step_with : With := {|
  mode := exactly;
  count := 1;
  labels := "release:docs, release:chore, release:fix, release:feature, release:feature-breaking";
|}.

(** The comma-separated [labels] input as a list of label names. *)
Definition configured_labels (w : With) : list string :=
  filter (λ l, l ≠ EmptyString) (Js.trim <$> Js.split "," (labels w)).

(** Modelled from the spec: the action
    [mheap/github-action-required-labels@v3] that the step uses is not
    part of the repository.  Given the label set attached to the pull
    request, these are the configured labels that are present in it. *)
Definition present (w : With) (L : gset string) : list string :=
  filter (λ l, l ∈ L) (configured_labels w).

(** Modelled from the spec: the exit code of the same action.  In mode
    [exactly] the check succeeds (exit 0) iff the number of configured
    labels present is [count]; otherwise it fails with a non-zero exit. *)
Definition run_action (w : With) (L : gset string) : Z :=
  match mode w with
  | exactly => if decide (length (present w L) = count w) then 0 else 1
  end.

(** The exit code of the job on a pull request labelled [L]. *)
Definition require_release_label (L : gset string) : Z :=
  run_action step_with L.

(** The closed set of release labels named by the spec. *)
Definition allowed_set : gset string :=
  {[ "release:docs"; "release:chore"; "release:fix"; "release:feature";
     "release:feature-breaking" ]}.

End RequireReleaseLabel.

(** ** The [validate-milestones] command *)

Module ValidateMilestones.

(** *** The data requested by the [getPRs] query *)

Record Commit := { message : string }.

(** [mergeCommit] is [null] for a pull request that is not merged: the
    query puts no condition on the state of the pull requests. *)
Module PullRequest.
Record t := {
  id : string;
  number : Z;
  title : string;
  mergeCommit : option Commit;
}.
End PullRequest.

Record PageInfo := {
  hasNextPage : bool;
  endCursor : option string;
}.

Record PullRequestConnection := {
  pageInfo : PageInfo;
  totalCount : Z;
  nodes : list PullRequest.t;
}.

Module Milestone.
Record t := {
  id : string;
  title : string;
  pullRequests : PullRequestConnection;
}.
End Milestone.

(** The object built at lines 96-99, [{ ...pr, milestone: milestone.title }]. *)
Module Pr.
Record t := {
  id : string;
  number : Z;
  title : string;
  mergeCommit : Commit;
  milestone : string;
}.
End Pr.

(** *** What a run does to the outside world *)

Inductive Request :=
| getOpenCherryPickPRsQuery
| getPRs
| milestonePullRequest (pullRequestId : string) (milestoneId : option Js.Value).

(** Arguments of [console.log]; colours are left out. *)
Inductive Message :=
| Text (s : string)
| Blank
| separator
| ShouldBeMilestoned (pr : Pr.t) (milestone : option string) (hasCorrectMilestone : bool)
| Fixing (pr : Pr.t) (milestone : option string)
| Done.

(** One entry per effect, in program order.  The asynchronous helpers of
    [releaseLib.mjs] are recorded by name and arguments.  Calls to the
    hosting API, to the shell and to these helpers are taken to succeed. *)
Inductive Event :=
| ConsoleLog (m : Message)
| Graphql (r : Request)
| Question (prompt : string)
| OpenPull (number : Z)
| LogSection (s : string)
| OpenCherryPickPRs
| UpdateRemotes
| GetReleaseBranch
| GetReleaseCommits
| IsCommitInRef (ref message : string).

(** *** The monad of the script

    A computation reads the answers the operator has typed ([stdin]) and
    produces an outcome, the events it emitted and the answers it left
    unread.  [ProcessExit] is [process.exit(code)]; [Thrown] is an
    exception that nothing catches; [AwaitingInput] is a [question] that
    nobody answers; [OutOfFuel] is an artefact of the bounded unrolling of
    [while (true)] and is shown to be unreachable. *)

Inductive Error := TypeError.

Inductive Outcome (A : Type) :=
| Returned (a : A)
| ProcessExit (code : Z)
| Thrown (error : Error)
| AwaitingInput
| OutOfFuel.
Arguments Returned {A} a.
Arguments ProcessExit {A} code.
Arguments Thrown {A} error.
Arguments AwaitingInput {A}.
Arguments OutOfFuel {A}.

Record Run (A : Type) := mkRun {
  outcome : Outcome A;
  emitted : list Event;
  unread : list string;
}.
Arguments mkRun {A} _ _ _.
Arguments outcome {A} _.
Arguments emitted {A} _.
Arguments unread {A} _.

Definition M (A : Type) : Type := list string → Run A.

Definition ret {A} (a : A) : M A := λ stdin, mkRun (Returned a) [] stdin.

Definition bind {A B} (m : M A) (k : A → M B) : M B := λ stdin,
  let r := m stdin in
  match outcome r with
  | Returned a =>
      let r' := k a (unread r) in
      mkRun (outcome r') (emitted r ++ emitted r') (unread r')
  | ProcessExit code => mkRun (ProcessExit code) (emitted r) (unread r)
  | Thrown error => mkRun (Thrown error) (emitted r) (unread r)
  | AwaitingInput => mkRun AwaitingInput (emitted r) (unread r)
  | OutOfFuel => mkRun OutOfFuel (emitted r) (unread r)
  end.

Declare Scope script_scope.
Delimit Scope script_scope with script.
Notation "x ← y ; z" := (bind y (λ x, z))
  (at level 20, y at level 100, z at level 200, only parsing) : script_scope.
Notation "y ;; z" := (bind y (λ _, z))
  (at level 100, z at level 200, only parsing, right associativity) : script_scope.
#[local] Open Scope script_scope.

Definition emit (e : Event) : M unit := λ stdin, mkRun (Returned tt) [e] stdin.

Definition console_log (m : Message) : M unit := emit (ConsoleLog m).

Definition process_exit {A} (code : Z) : M A := λ stdin,
  mkRun (ProcessExit code) [] stdin.

Definition throw {A} (error : Error) : M A := λ stdin,
  mkRun (Thrown error) [] stdin.

(** The value of an expression that throws a [TypeError] when it has
    none. *)
Definition or_throw {A} (value : option A) : M A :=
  match value with
  | Some a => ret a
  | None => throw TypeError
  end.

Definition out_of_fuel {A} : M A := λ stdin, mkRun OutOfFuel [] stdin.

(** [await question(prompt)]: the prompt is printed, then the next answer
    is read. *)
Definition question (prompt : string) : M string := λ stdin,
  match stdin with
  | [] => mkRun AwaitingInput [Question prompt] []
  | answer :: rest => mkRun (Returned answer) [Question prompt] rest
  end.

(** A guarded statement without an [else]. *)
Definition when (cond : bool) (body : M unit) : M unit :=
  if cond then body else ret tt.

(** [for (const x of xs) body]. *)
Fixpoint for_of {A} (xs : list A) (body : A → M unit) : M unit :=
  match xs with
  | [] => ret tt
  | x :: xs' => body x;; for_of xs' body
  end.

(** The exit status of the process: [code] after [process.exit(code)],
    0 when the handler returns, 1 when an exception is not caught, none
    while the script is waiting. *)
Definition exit_status {A} (o : Outcome A) : option Z :=
  match o with
  | Returned _ => Some 0
  | ProcessExit code => Some code
  | Thrown _ => Some 1
  | AwaitingInput => None
  | OutOfFuel => None
  end.

(** *** What the script is run against *)

(** The synchronous helpers imported from [releaseLib.mjs], and the values
    its asynchronous helpers resolve to.  They are parameters of the
    script: nothing is assumed about them. *)
Record ReleaseLib := {
  isYes : string → bool;
  sanitizeMessage : string → string;
  isCommitInRef : string → string → bool;
  getReleaseBranch : string;
  releaseCommits : list Commit;
}.

(** The environment of the process and the answers of the hosting API to
    the two queries. *)
Record Host := {
  GITHUB_TOKEN : option string;
  openCherryPickPRs_totalCount : Z;
  milestones_nodes : list Milestone.t;
}.

(** [this] of [makeValidateMilestone], bound at lines 112-116 ([octokit]
    is the channel of the [Graphql] events). *)
Record This := {
  prompt : bool;
  milestoneTitlesToIds : gmap string Js.Value;
}.

Definition IGNORE_LIST : list string := [
  (* #6692 chore: remove private field on new packages package.json *)
  "PR_kwDOC2M2f85AxHWK";
  (* #6697 Netlify: Enable auth-providers-api and auth-providers-web installation *)
  "PR_kwDOC2M2f85Axh0g";
  (* #6716 Auth: Update firebase setup script *)
  "PR_kwDOC2M2f85A0cDn";
  (* #6839 Change to use @iarna/toml instead of toml *)
  "PR_kwDOC2M2f85CiaV_"
].

(** Line 59: [nodes.filter((node) => node.title !== 'chore')]. *)
Definition without_chore (milestones : list Milestone.t) : list Milestone.t :=
  filter (λ node, Milestone.title node ≠ "chore") milestones.

(** Lines 61-63: [!nodes.every((m) => !m.pullRequests.pageInfo.hasNextPage)]. *)
Definition has_next_page (milestones : list Milestone.t) : bool :=
  negb (forallb
          (λ milestone, negb (hasNextPage (pageInfo (Milestone.pullRequests milestone))))
          milestones).

(** Line 94: [message.split('\n').shift()], written back into the pull
    request. *)
Definition first_line (message : string) : string :=
  default EmptyString (Js.shift (Js.split "010" message)).

(** Lines 93-100, the body of the inner [map].  Reading [message] of a
    [null] merge commit throws a [TypeError]: there is then no result. *)
Definition milestoned (milestone : Milestone.t) (pr : PullRequest.t)
  : option Pr.t :=
  match PullRequest.mergeCommit pr with
  | None => None
  | Some mergeCommit' =>
      Some {|
        Pr.id := PullRequest.id pr;
        Pr.number := PullRequest.number pr;
        Pr.title := PullRequest.title pr;
        Pr.mergeCommit := {| message := first_line (message mergeCommit') |};
        Pr.milestone := Milestone.title milestone;
      |}
  end.

(** Lines 91-102: the [flatMap] over the milestones, which has a result
    only if no pull request makes line 94 throw, then the [filter]. *)
Definition collect_prs (milestones : list Milestone.t) : option (list Pr.t) :=
  (λ prs, filter (λ pr, Js.includes IGNORE_LIST (Pr.id pr) = false) (concat prs))
  <$> mapM
        (λ milestone,
           mapM (milestoned milestone) (nodes (Milestone.pullRequests milestone)))
        milestones.

(** Lines 104-107: the [reduce] that fills the object literal [{}]. *)
Definition titles_to_ids (milestones : list Milestone.t) : gmap string Js.Value :=
  fold_left (λ obj node, Js.set obj (Milestone.title node) (Milestone.id node))
    milestones Js.empty_object.

Section Script.

Variable lib : ReleaseLib.
Variable host : Host.

Definition graphql_getOpenCherryPickPRsQuery : M Z :=
  emit (Graphql getOpenCherryPickPRsQuery);;
  ret (openCherryPickPRs_totalCount host).

Definition graphql_getPRs : M (list Milestone.t) :=
  emit (Graphql getPRs);;
  ret (milestones_nodes host).

(** Lines 176-179. *)
Definition isCommitInReleaseBranch (message' : string) : M bool :=
  emit GetReleaseCommits;;
  ret (existsb (λ commit, String.eqb (message commit) message') (releaseCommits lib)).

Definition await_isCommitInRef (ref message' : string) : M bool :=
  emit (IsCommitInRef ref message');;
  ret (isCommitInRef lib ref message').

Definition await_getReleaseBranch : M string :=
  emit GetReleaseBranch;;
  ret (getReleaseBranch lib).

(** Lines 204-229, [while (true)], unrolled at most [fuel] times.  The
    variable [answer] is the only state of the loop. *)
Fixpoint while_true (fuel : nat) (this : This) (pr : Pr.t)
    (milestone : option string) (answer : string) : M unit :=
  match fuel with
  | O => out_of_fuel
  | S fuel' =>
      answer ← (if prompt this
                then question "  ok to fix? [Y/n/o(pen)] > "
                else ret answer);
      if Js.includes ["open"; "o"] answer then
        emit (OpenPull (Pr.number pr));;
        while_true fuel' this pr milestone answer
      else
        when (isYes lib answer)
          (console_log (Fixing pr milestone);;
           emit (Graphql (milestonePullRequest
                            (Pr.id pr)
                            (milestoneTitlesToIds this !! Js.toPropertyKey milestone))));;
        console_log Done
  end.

(** Lines 181-230.  One more unrolling than there are unread answers is
    enough for the loop: an iteration that goes on has read an answer. *)
Definition makeValidateMilestone (this : This) (pr : Pr.t)
    (milestone : option string) : M unit :=
  let hasCorrectMilestone := bool_decide (Some (Pr.milestone pr) = milestone) in
  console_log Blank;;
  console_log (ShouldBeMilestoned pr milestone hasCorrectMilestone);;
  if hasCorrectMilestone then
    console_log Done
  else
    λ stdin, while_true (S (length stdin)) this pr milestone "y" stdin.

(** Lines 118-132, the body of the [for] loop. *)
Definition validate (this : This) (branch : string) (pr : Pr.t) : M unit :=
  console_log separator;;
  inRelease ← isCommitInReleaseBranch (message (Pr.mergeCommit pr));
  if inRelease then
    makeValidateMilestone this pr (Js.split "/" branch !! 2%nat)
  else
    inNext ← await_isCommitInRef "next"
               (sanitizeMessage lib (message (Pr.mergeCommit pr)));
    if inNext then
      makeValidateMilestone this pr (Some "next-release")
    else
      makeValidateMilestone this pr (Some "v4.0.0").

(** Lines 31-133. *)
Definition handler (prompt' : bool) : M unit :=
  when (negb (Js.truthy (GITHUB_TOKEN host)))
    (console_log (Text "You have to set the GITHUB_TOKEN env var");;
     process_exit 1);;
  totalCount' ← graphql_getOpenCherryPickPRsQuery;
  when (0 <? totalCount')
    (console_log (Text "There are open cherry-pick PRs; get them merged before continuing");;
     emit OpenCherryPickPRs;;
     process_exit 1);;
  nodes' ← graphql_getPRs;
  let nodes' := without_chore nodes' in
  when (has_next_page nodes')
    (console_log (Text "A milestone has a next page (i.e. a lot of PRs); this script needs to be updated");;
     process_exit 1);;
  emit (LogSection ("Confirm PRs in milestones" +:+ Js.newline));;
  console_log (Text ("If you see more than one version here (e.g. v3.6.0 and v3.5.0), you need to close the older one(s)" +:+ Js.newline));;
  answer ← question ("Ok to review PRs in milestone "
                       +:+ Js.join ", " (Milestone.title <$> nodes')
                       +:+ " ? [Y/n/] > ");
  console_log Blank;;
  (* line 85 awaits a plain template literal: nothing is opened *)
  when (String.eqb answer "n") (process_exit 1);;
  emit UpdateRemotes;;
  prs ← or_throw (collect_prs nodes');
  let this := {| prompt := prompt'; milestoneTitlesToIds := titles_to_ids nodes' |} in
  branch ← await_getReleaseBranch;
  console_log Blank;;
  for_of prs (validate this branch).

End Script.

End ValidateMilestones.

(** ** Notions used to state the properties of the command *)

Module Observations.
Import ValidateMilestones.

(** Events that happened before a run. *)
Definition prepend {A} (events : list Event) (r : Run A) : Run A :=
  mkRun (outcome r) (events ++ emitted r) (unread r).

(** Every event a computation can emit satisfies [P], whatever is typed. *)
Definition always {A} (P : Event → Prop) (m : M A) : Prop :=
  ∀ stdin, Forall P (emitted (m stdin)).

(** The operator's reply is neither ["open"] nor ["o"]: it settles the
    pull request. *)
Definition settles (answer : string) : bool :=
  negb (Js.includes ["open"; "o"] answer).

Definition ok_to_fix_prompt : string := "  ok to fix? [Y/n/o(pen)] > ".

Definition ok_to_fix : Event := Question ok_to_fix_prompt.

Section Reconciliation.

Variable lib : ReleaseLib.
Variable this : This.
Variable pr : Pr.t.
Variable milestone : option string.

(** What is printed before the loop is entered. *)
Definition report (hasCorrectMilestone : bool) : list Event :=
  [ConsoleLog Blank;
   ConsoleLog (ShouldBeMilestoned pr milestone hasCorrectMilestone)].

(** The milestone-correction mutation for [pr] and [milestone]. *)
Definition correction : Event :=
  Graphql (milestonePullRequest
             (Pr.id pr)
             (milestoneTitlesToIds this !! Js.toPropertyKey milestone)).

Definition fixing : list Event :=
  [ConsoleLog (Fixing pr milestone); correction].

(** The events of an iteration that leaves the loop on [answer]. *)
Definition settled (answer : string) : list Event :=
  (if isYes lib answer then fixing else []) ++ [ConsoleLog Done].

(** The prompting loop, by recursion on what the operator typed. *)
Fixpoint asked (stdin : list string) : Run unit :=
  match stdin with
  | [] => mkRun AwaitingInput [ok_to_fix] []
  | answer :: rest =>
      if settles answer
      then mkRun (Returned tt) (ok_to_fix :: settled answer) rest
      else prepend [ok_to_fix; OpenPull (Pr.number pr)] (asked rest)
  end.

End Reconciliation.

(** The events [makeValidateMilestone] can emit for [pr] and [milestone]. *)
Inductive reconciles (this : This) (pr : Pr.t) (milestone : option string)
  : Event → Prop :=
| reconciles_blank : reconciles this pr milestone (ConsoleLog Blank)
| reconciles_shown ok :
    reconciles this pr milestone (ConsoleLog (ShouldBeMilestoned pr milestone ok))
| reconciles_ask : reconciles this pr milestone ok_to_fix
| reconciles_open : reconciles this pr milestone (OpenPull (Pr.number pr))
| reconciles_fixing : reconciles this pr milestone (ConsoleLog (Fixing pr milestone))
| reconciles_mutation : reconciles this pr milestone (correction this pr milestone)
| reconciles_done : reconciles this pr milestone (ConsoleLog Done).

(** The expected milestone in the words of the specification: the
    version segment of the release branch if the message is that of a
    commit of the release branch, else "next-release" if the sanitized
    message is on [next], else the fallback "v4.0.0". *)
Definition expected_milestone (lib : ReleaseLib) (branch message' : string)
  : option string :=
  if decide (message' ∈ message <$> releaseCommits lib) then
    Js.split "/" branch !! 2%nat
  else if isCommitInRef lib "next" (sanitizeMessage lib message') then
    Some "next-release"
  else
    Some "v4.0.0".

(** The events by which [pr] is classified: the second test is made only
    when the first fails. *)
Definition classification (lib : ReleaseLib) (pr : Pr.t) : list Event :=
  ConsoleLog separator :: GetReleaseCommits ::
  (if decide (message (Pr.mergeCommit pr) ∈ message <$> releaseCommits lib)
   then []
   else [IsCommitInRef "next"
           (sanitizeMessage lib (message (Pr.mergeCommit pr)))]).

(** The events one iteration of the [for] loop can emit for [pr]. *)
Inductive validates (lib : ReleaseLib) (this : This) (branch : string) (pr : Pr.t)
  : Event → Prop :=
| validates_separator : validates lib this branch pr (ConsoleLog separator)
| validates_release : validates lib this branch pr GetReleaseCommits
| validates_next :
    validates lib this branch pr
      (IsCommitInRef "next" (sanitizeMessage lib (message (Pr.mergeCommit pr))))
| validates_reconciles e :
    reconciles this pr
      (expected_milestone lib branch (message (Pr.mergeCommit pr))) e →
    validates lib this branch pr e.

(** The pull request and the expected milestone an event speaks of. *)
Definition expects (e : Event) : option (Pr.t * option string) :=
  match e with
  | ConsoleLog (ShouldBeMilestoned pr milestone _) => Some (pr, milestone)
  | ConsoleLog (Fixing pr milestone) => Some (pr, milestone)
  | _ => None
  end.

(** The milestones that are validated, and their pull requests. *)
Definition validated (host : Host) : list Milestone.t :=
  without_chore (milestones_nodes host).

Definition review (host : Host) : Event :=
  Question ("Ok to review PRs in milestone "
              +:+ Js.join ", " (Milestone.title <$> validated host)
              +:+ " ? [Y/n/] > ").

(** Everything up to the first question. *)
Definition preliminaries (host : Host) : list Event :=
  [Graphql getOpenCherryPickPRsQuery;
   Graphql getPRs;
   LogSection ("Confirm PRs in milestones" +:+ Js.newline);
   ConsoleLog (Text ("If you see more than one version here (e.g. v3.6.0 and v3.5.0), you need to close the older one(s)" +:+ Js.newline));
   review host].

(** Between the first question and the loop. *)
Definition preparations : list Event :=
  [ConsoleLog Blank; UpdateRemotes; GetReleaseBranch; ConsoleLog Blank].

(** The pull requests the loop runs over: none if line 94 throws. *)
Definition collected (host : Host) : list Pr.t :=
  default [] (collect_prs (validated host)).

(** A pull request without merge commit is listed under [node]. *)
Definition lists_unmerged (node : Milestone.t) : Prop :=
  ∃ raw, raw ∈ nodes (Milestone.pullRequests node)
         ∧ PullRequest.mergeCommit raw = None.

(** [this] as the handler binds it. *)
Definition bound (host : Host) (prompt' : bool) : This := {|
  prompt := prompt';
  milestoneTitlesToIds := titles_to_ids (validated host);
|}.

(** The four reasons for which the command stops with exit code 1. *)
Definition no_credential (host : Host) : Prop :=
  Js.truthy (GITHUB_TOKEN host) = false.

Definition open_cherry_picks (host : Host) : Prop :=
  0 < openCherryPickPRs_totalCount host.

Definition needs_pagination (node : Milestone.t) : Prop :=
  hasNextPage (pageInfo (Milestone.pullRequests node)) = true.

Definition declined (stdin : list string) : Prop :=
  head stdin = Some "n".

(** None of the three guards stops the run before the first question. *)
Definition clear (host : Host) : Prop :=
  Js.truthy (GITHUB_TOKEN host) = true ∧
  ¬ 0 < openCherryPickPRs_totalCount host ∧
  has_next_page (validated host) = false.

(** The seven ways through the handler: stopped by one of the three
    guards, waiting at the review question, declined there, dead on line
    94, or reviewed. *)
Inductive path (lib : ReleaseLib) (host : Host) (prompt' : bool)
  : list string → Run unit → Prop :=
| path_no_credential stdin :
    Js.truthy (GITHUB_TOKEN host) = false →
    path lib host prompt' stdin
      (mkRun (ProcessExit 1)
         [ConsoleLog (Text "You have to set the GITHUB_TOKEN env var")] stdin)
| path_open_cherry_picks stdin :
    Js.truthy (GITHUB_TOKEN host) = true →
    0 < openCherryPickPRs_totalCount host →
    path lib host prompt' stdin
      (mkRun (ProcessExit 1)
         [Graphql getOpenCherryPickPRsQuery;
          ConsoleLog (Text "There are open cherry-pick PRs; get them merged before continuing");
          OpenCherryPickPRs]
         stdin)
| path_needs_pagination stdin :
    Js.truthy (GITHUB_TOKEN host) = true →
    ¬ 0 < openCherryPickPRs_totalCount host →
    has_next_page (validated host) = true →
    path lib host prompt' stdin
      (mkRun (ProcessExit 1)
         [Graphql getOpenCherryPickPRsQuery;
          Graphql getPRs;
          ConsoleLog (Text "A milestone has a next page (i.e. a lot of PRs); this script needs to be updated")]
         stdin)
| path_unanswered :
    clear host →
    path lib host prompt' [] (mkRun AwaitingInput (preliminaries host) [])
| path_declined rest :
    clear host →
    path lib host prompt' ("n" :: rest)
      (mkRun (ProcessExit 1) (preliminaries host ++ [ConsoleLog Blank]) rest)
| path_thrown answer rest :
    clear host → answer ≠ "n" →
    collect_prs (validated host) = None →
    path lib host prompt' (answer :: rest)
      (mkRun (Thrown TypeError)
         (preliminaries host ++ [ConsoleLog Blank; UpdateRemotes]) rest)
| path_reviewed answer rest prs :
    clear host → answer ≠ "n" →
    collect_prs (validated host) = Some prs →
    path lib host prompt' (answer :: rest)
      (prepend (preliminaries host ++ preparations)
         (for_of prs
            (validate lib (bound host prompt') (getReleaseBranch lib)) rest)).

(** The number of answers that settle a pull request. *)
Definition decisions (stdin : list string) : nat :=
  length (filter (λ answer, settles answer = true) stdin).

(** The answer of the hosting API without the pull requests of the
    ignore list, and without the milestones titled "chore". *)
Definition without_ignored (node : Milestone.t) : Milestone.t := {|
  Milestone.id := Milestone.id node;
  Milestone.title := Milestone.title node;
  Milestone.pullRequests := {|
    pageInfo := pageInfo (Milestone.pullRequests node);
    totalCount := totalCount (Milestone.pullRequests node);
    nodes := filter (λ pr, PullRequest.id pr ∉ IGNORE_LIST)
               (nodes (Milestone.pullRequests node));
  |};
|}.

Definition answering (host : Host) (milestones : list Milestone.t) : Host := {|
  GITHUB_TOKEN := GITHUB_TOKEN host;
  openCherryPickPRs_totalCount := openCherryPickPRs_totalCount host;
  milestones_nodes := milestones;
|}.

(** Events that do not concern a particular pull request. *)
Definition preliminary (e : Event) : Prop :=
  match e with
  | ConsoleLog (Text _) | ConsoleLog Blank
  | Graphql getOpenCherryPickPRsQuery | Graphql getPRs
  | Question _ | LogSection _
  | OpenCherryPickPRs | UpdateRemotes | GetReleaseBranch => True
  | _ => False
  end.

(** An event of the reconciliation of one pull request names it: by the
    record in a message, by its id in a mutation, by its number when it
    is opened in the browser. *)
Definition names (prs : list Pr.t) (e : Event) : Prop :=
  match e with
  | ConsoleLog (ShouldBeMilestoned pr _ _) => pr ∈ prs
  | ConsoleLog (Fixing pr _) => pr ∈ prs
  | Graphql (milestonePullRequest pullRequestId _) =>
      ∃ pr, pr ∈ prs ∧ Pr.id pr = pullRequestId
  | OpenPull number => ∃ pr, pr ∈ prs ∧ Pr.number pr = number
  | _ => True
  end.

(** Events by which a pull request is classified, presented or fixed. *)
Definition processes_pr (e : Event) : bool :=
  match e with
  | ConsoleLog separator
  | ConsoleLog (ShouldBeMilestoned _ _ _)
  | ConsoleLog (Fixing _ _)
  | ConsoleLog Done
  | Graphql (milestonePullRequest _ _)
  | OpenPull _
  | GetReleaseCommits
  | IsCommitInRef _ _ => true
  | Question prompt => String.eqb prompt ok_to_fix_prompt
  | _ => false
  end.

End Observations.

(** ** A sample installation, for closed instances of the properties *)

Module Sample.
Import ValidateMilestones.

(** A [releaseLib] in which ["y"], ["Y"] and the empty reply are
    affirmative, messages are not rewritten, and one commit is on [next]. *)
Definition lib : ReleaseLib := {|
  isYes := Js.includes [""; "Y"; "y"];
  sanitizeMessage := λ message, message;
  isCommitInRef := λ ref message,
    (String.eqb ref "next" && String.eqb message "feat: b (#2)")%bool;
  getReleaseBranch := "release/minor/v3.5.0";
  releaseCommits := [ {| message := "fix: a (#1)" |} ];
|}.

Definition connection (more : bool) (prs : list PullRequest.t)
  : PullRequestConnection := {|
  pageInfo := {| hasNextPage := more; endCursor := None |};
  totalCount := Z.of_nat (length prs);
  nodes := prs;
|}.

Definition pr1 : PullRequest.t := {|
  PullRequest.id := "PR_1";
  PullRequest.number := 1;
  PullRequest.title := "fix: a";
  PullRequest.mergeCommit :=
    Some {| message := "fix: a (#1)" +:+ Js.newline +:+ "Co-authored-by: b" |};
|}.

Definition pr2 : PullRequest.t := {|
  PullRequest.id := "PR_2";
  PullRequest.number := 2;
  PullRequest.title := "feat: b";
  PullRequest.mergeCommit := Some {| message := "feat: b (#2)" |};
|}.

Definition pr3 : PullRequest.t := {|
  PullRequest.id := "PR_3";
  PullRequest.number := 3;
  PullRequest.title := "chore: c";
  PullRequest.mergeCommit := Some {| message := "chore: c (#3)" |};
|}.

(** A pull request of the ignore list. *)
Definition pr6692 : PullRequest.t := {|
  PullRequest.id := "PR_kwDOC2M2f85AxHWK";
  PullRequest.number := 6692;
  PullRequest.title := "chore: remove private field on new packages package.json";
  PullRequest.mergeCommit :=
    Some {| message := "chore: remove private field (#6692)" |};
|}.

(** A pull request that is still open: it has no merge commit. *)
Definition pr4 : PullRequest.t := {|
  PullRequest.id := "PR_4";
  PullRequest.number := 4;
  PullRequest.title := "feat: d";
  PullRequest.mergeCommit := None;
|}.

Definition v3_4_0 (more : bool) (prs : list PullRequest.t) : Milestone.t := {|
  Milestone.id := "MI_340";
  Milestone.title := "v3.4.0";
  Milestone.pullRequests := connection more prs;
|}.

Definition v3_5_0 (more : bool) (prs : list PullRequest.t) : Milestone.t := {|
  Milestone.id := "MI_350";
  Milestone.title := "v3.5.0";
  Milestone.pullRequests := connection more prs;
|}.

Definition chore (more : bool) (prs : list PullRequest.t) : Milestone.t := {|
  Milestone.id := "MI_chore";
  Milestone.title := "chore";
  Milestone.pullRequests := connection more prs;
|}.

Definition host (token : option string) (cherryPicks : Z)
    (milestones : list Milestone.t) : Host := {|
  GITHUB_TOKEN := token;
  openCherryPickPRs_totalCount := cherryPicks;
  milestones_nodes := milestones;
|}.

(** [pr1] as it is collected from the milestone v3.4.0. *)
Definition pr1_in_v3_4_0 : Pr.t := {|
  Pr.id := "PR_1";
  Pr.number := 1;
  Pr.title := "fix: a";
  Pr.mergeCommit := {| message := "fix: a (#1)" |};
  Pr.milestone := "v3.4.0";
|}.

(** The three pull requests as they are collected from the milestone
    v3.5.0. *)
Definition pr1_in_v3_5_0 : Pr.t := {|
  Pr.id := "PR_1";
  Pr.number := 1;
  Pr.title := "fix: a";
  Pr.mergeCommit := {| message := "fix: a (#1)" |};
  Pr.milestone := "v3.5.0";
|}.

Definition pr2_in_v3_5_0 : Pr.t := {|
  Pr.id := "PR_2";
  Pr.number := 2;
  Pr.title := "feat: b";
  Pr.mergeCommit := {| message := "feat: b (#2)" |};
  Pr.milestone := "v3.5.0";
|}.

Definition pr3_in_v3_5_0 : Pr.t := {|
  Pr.id := "PR_3";
  Pr.number := 3;
  Pr.title := "chore: c";
  Pr.mergeCommit := {| message := "chore: c (#3)" |};
  Pr.milestone := "v3.5.0";
|}.

Definition this (prompt' : bool) (milestones : list Milestone.t) : This := {|
  prompt := prompt';
  milestoneTitlesToIds := titles_to_ids milestones;
|}.

End Sample.


(** ** Readings of a run *)

Module Runs.
Import ValidateMilestones Observations.

(** The pull requests a trace presents, in the order of presentation. *)
Definition presented (events : list Event) : list Pr.t :=
  omap (λ e, match e with
             | ConsoleLog (ShouldBeMilestoned pr _ _) => Some pr
             | _ => None
             end) events.

(** The ids of the pull requests a trace mutates, in order. *)
Definition mutated (events : list Event) : list string :=
  omap (λ e, match e with
             | Graphql (milestonePullRequest pullRequestId _) => Some pullRequestId
             | _ => None
             end) events.

(** The milestone of [pr] is not the one the classification expects. *)
Definition mismatched (lib : ReleaseLib) (branch : string) (pr : Pr.t) : Prop :=
  Some (Pr.milestone pr)
  ≠ expected_milestone lib branch (message (Pr.mergeCommit pr)).

(** The events of one iteration of the [for] loop when the script does
    not prompt. *)
Definition quiet (lib : ReleaseLib) (this : This) (branch : string) (pr : Pr.t)
  : list Event :=
  let milestone := expected_milestone lib branch (message (Pr.mergeCommit pr)) in
  classification lib pr
  ++ (if decide (Some (Pr.milestone pr) = milestone)
      then report pr milestone true ++ [ConsoleLog Done]
      else report pr milestone false ++ settled lib this pr milestone "y").

(** The events of one iteration for a pull request whose milestone is
    the expected one. *)
Definition untouched (lib : ReleaseLib) (branch : string) (pr : Pr.t)
  : list Event :=
  let milestone := expected_milestone lib branch (message (Pr.mergeCommit pr)) in
  classification lib pr ++ report pr milestone true ++ [ConsoleLog Done].

(** The number of typed answers that settle a pull request and are
    affirmative. *)
Definition affirmed (lib : ReleaseLib) (stdin : list string) : nat :=
  length (filter (λ answer, settles answer = true ∧ isYes lib answer = true) stdin).

(** [n] rounds of question and opening in the browser. *)
Definition openings (pr : Pr.t) (n : nat) : list Event :=
  concat (replicate n [ok_to_fix; OpenPull (Pr.number pr)]).

(** The character [c] occurs in [s]. *)
Fixpoint contains (c : ascii) (s : string) : bool :=
  match s with
  | EmptyString => false
  | String c' rest => (Ascii.eqb c' c || contains c rest)%bool
  end.

End Runs.

(** * Properties *)

(** ** The JavaScript fragments *)

Module JsFacts.
Import Js.

Lemma split_nonempty sep s : split sep s ≠ [].
Proof.
  destruct s as [|c rest]; simpl; [done|].
  destruct (Ascii.eqb c sep); [done|].
  by destruct (split sep rest).
Qed.

Lemma includes_elem_of arr x : includes arr x = true ↔ x ∈ arr.
Proof.
  unfold includes. rewrite existsb_exists. split.
  - intros (y & Hy & Heq). apply String.eqb_eq in Heq. subst.
    by apply list_elem_of_In.
  - intros Hx. exists x. split; [by apply list_elem_of_In|apply String.eqb_refl].
Qed.

Lemma includes_not_elem_of arr x : includes arr x = false ↔ x ∉ arr.
Proof.
  rewrite <- includes_elem_of. by destruct (includes arr x).
Qed.

Example split_release_branch :
  split "/" "release/minor/v3.5.0" = ["release"; "minor"; "v3.5.0"].
Proof. reflexivity. Qed.

Example split_trailing_separator : split "/" "a/" = ["a"; ""].
Proof. reflexivity. Qed.

Example trim_both_ends : trim "  release:fix " = "release:fix".
Proof. reflexivity. Qed.

End JsFacts.

(** ** The release-label workflow *)

Module RequireReleaseLabelFacts.
Import RequireReleaseLabel.

Lemma configured_labels_step_with :
  configured_labels step_with =
  ["release:docs"; "release:chore"; "release:fix"; "release:feature";
   "release:feature-breaking"].
Proof. reflexivity. Qed.

(** Counting the members of a duplicate-free list that lie in a set is
    measuring an intersection. *)
Lemma length_filter_elem_of (L : gset string) (l : list string) :
  NoDup l → length (filter (λ x, x ∈ L) l) = size (L ∩ list_to_set l).
Proof.
  induction 1 as [|x l Hx Hl IH]; simpl.
  - by rewrite intersection_empty_r_L, size_empty.
  - rewrite filter_cons, intersection_union_l_L.
    destruct (decide (x ∈ L)) as [HL|HL]; simpl; rewrite IH.
    + rewrite (comm_L (∩) L {[x]}), (subseteq_intersection_1_L {[x]} L)
        by (by apply singleton_subseteq_l).
      rewrite (size_union {[x]} (L ∩ list_to_set l)), size_singleton; [done|].
      apply disjoint_singleton_l.
      rewrite elem_of_intersection, elem_of_list_to_set. tauto.
    + rewrite (proj1 (disjoint_intersection_L L {[x]}))
        by (by apply disjoint_singleton_r).
      by rewrite (left_id_L ∅ (∪)).
Qed.

Lemma allowed_set_configured :
  allowed_set = list_to_set (configured_labels step_with).
Proof.
  rewrite configured_labels_step_with. unfold allowed_set. simpl.
  by rewrite (right_id_L ∅ (∪)).
Qed.

Lemma present_size (L : gset string) :
  length (present step_with L) = size (L ∩ allowed_set).
Proof.
  unfold present. rewrite allowed_set_configured.
  apply length_filter_elem_of.
  rewrite configured_labels_step_with.
  apply (bool_decide_unpack _). by vm_compute.
Qed.

(** C2.  For every label set [L] of a pull request the label check exits
    with 0 iff exactly one label of the allowed set is in [L], and with a
    non-zero code otherwise. *)
Theorem label_gate_exactly_one (L : gset string) :
  (require_release_label L = 0 ↔ size (L ∩ allowed_set) = 1%nat) ∧
  (require_release_label L ≠ 0 ↔ size (L ∩ allowed_set) ≠ 1%nat).
Proof.
  unfold require_release_label, run_action. simpl.
  rewrite <- present_size.
  destruct (decide (length (present step_with L) = 1%nat)); split; split;
    intros; try done.
Qed.

Example one_release_label : require_release_label {[ "release:fix" ]} = 0.
Proof. by vm_compute. Qed.

Example no_label : require_release_label ∅ = 1.
Proof. by vm_compute. Qed.

Example two_release_labels :
  require_release_label {[ "release:fix"; "release:docs" ]} = 1.
Proof. by vm_compute. Qed.

Example other_labels_do_not_count :
  require_release_label {[ "release:fix"; "bug"; "topic/docs" ]} = 0.
Proof. by vm_compute. Qed.

End RequireReleaseLabelFacts.

(** ** The [validate-milestones] command *)

Module ValidateMilestonesFacts.
Import ValidateMilestones Observations.
#[local] Open Scope script_scope.

(** *** The monad *)

Lemma prepend_nil {A} (r : Run A) : prepend [] r = r.
Proof. by destruct r. Qed.

Lemma prepend_prepend {A} es1 es2 (r : Run A) :
  prepend es1 (prepend es2 r) = prepend (es1 ++ es2) r.
Proof. unfold prepend. simpl. by rewrite (assoc_L (++)). Qed.

Lemma bind_emit {B} e (k : unit → M B) stdin :
  bind (emit e) k stdin = prepend [e] (k tt stdin).
Proof. reflexivity. Qed.

Lemma bind_ret {A B} (a : A) (k : A → M B) stdin :
  bind (ret a) k stdin = k a stdin.
Proof. unfold bind. simpl. by destruct (k a stdin). Qed.

Lemma bind_question_cons {B} p (k : string → M B) answer rest :
  bind (question p) k (answer :: rest) = prepend [Question p] (k answer rest).
Proof. reflexivity. Qed.

Lemma bind_question_nil {B} p (k : string → M B) :
  bind (question p) k [] = mkRun AwaitingInput [Question p] [].
Proof. reflexivity. Qed.

Lemma bind_process_exit {A B} code (k : A → M B) stdin :
  bind (process_exit code) k stdin = mkRun (ProcessExit code) [] stdin.
Proof. reflexivity. Qed.

Lemma bind_bind {A B C} (m : M A) (k : A → M B) (h : B → M C) stdin :
  bind (bind m k) h stdin = bind m (λ a, bind (k a) h) stdin.
Proof.
  unfold bind. destruct (m stdin) as [[a|code|error| |] es rest]; simpl; try done.
  destruct (k a rest) as [[b|code|error| |] es' rest']; simpl; try done.
  by rewrite (assoc_L (++)).
Qed.

Lemma emit_run e stdin : emit e stdin = mkRun (Returned tt) [e] stdin.
Proof. reflexivity. Qed.

#[local] Arguments bind : simpl never.
#[local] Arguments while_true : simpl nomatch.

(** *** The reconciliation loop *)

Section Reconciliation.

Variable lib : ReleaseLib.
Variable this : This.
Variable pr : Pr.t.
Variable milestone : option string.

(** When the script prompts, every iteration reads an answer: more fuel
    than unread answers is never used up, and the loop is [asked]. *)
Lemma while_true_prompt fuel answer stdin :
  prompt this = true → (length stdin < fuel)%nat →
  while_true lib fuel this pr milestone answer stdin
  = asked lib this pr milestone stdin.
Proof.
  intros Hprompt. revert answer stdin.
  induction fuel as [|fuel IH]; intros answer stdin Hlen; [lia|].
  cbn [while_true]. rewrite Hprompt.
  destruct stdin as [|a rest]; [reflexivity|].
  rewrite bind_question_cons. cbn [asked]. unfold settles.
  destruct (Js.includes ["open"; "o"] a) eqn:Hopen; cbn [negb].
  - rewrite bind_emit, IH by (simpl in Hlen; lia).
    by rewrite prepend_prepend.
  - unfold settled, fixing, correction. destruct (isYes lib a); reflexivity.
Qed.

(** When it does not prompt, an answer that settles leaves the loop in
    the first iteration. *)
Lemma while_true_no_prompt fuel answer stdin :
  prompt this = false → settles answer = true →
  while_true lib (S fuel) this pr milestone answer stdin
  = mkRun (Returned tt) (settled lib this pr milestone answer) stdin.
Proof.
  intros Hprompt Hsettles. cbn [while_true]. rewrite Hprompt, bind_ret.
  unfold settles in Hsettles. apply negb_true_iff in Hsettles. rewrite Hsettles.
  unfold settled, fixing, correction. destruct (isYes lib answer); reflexivity.
Qed.

(** The three ways through [makeValidateMilestone]. *)
Lemma makeValidateMilestone_correct stdin :
  Some (Pr.milestone pr) = milestone →
  makeValidateMilestone lib this pr milestone stdin
  = mkRun (Returned tt) (report pr milestone true ++ [ConsoleLog Done]) stdin.
Proof.
  intros Heq. unfold makeValidateMilestone.
  rewrite (bool_decide_eq_true_2 _ Heq). reflexivity.
Qed.

Lemma makeValidateMilestone_prompt stdin :
  Some (Pr.milestone pr) ≠ milestone → prompt this = true →
  makeValidateMilestone lib this pr milestone stdin
  = prepend (report pr milestone false) (asked lib this pr milestone stdin).
Proof.
  intros Hne Hprompt. unfold makeValidateMilestone.
  rewrite (bool_decide_eq_false_2 _ Hne).
  unfold console_log. rewrite !bind_emit, prepend_prepend.
  by rewrite while_true_prompt by (done || lia).
Qed.

Lemma makeValidateMilestone_no_prompt stdin :
  Some (Pr.milestone pr) ≠ milestone → prompt this = false →
  makeValidateMilestone lib this pr milestone stdin
  = mkRun (Returned tt)
      (report pr milestone false ++ settled lib this pr milestone "y") stdin.
Proof.
  intros Hne Hprompt. unfold makeValidateMilestone.
  rewrite (bool_decide_eq_false_2 _ Hne).
  unfold console_log. rewrite !bind_emit, prepend_prepend.
  by rewrite while_true_no_prompt.
Qed.

End Reconciliation.

Lemma settles_true answer :
  settles answer = true ↔ answer ≠ "open" ∧ answer ≠ "o".
Proof.
  unfold settles. rewrite negb_true_iff, JsFacts.includes_not_elem_of.
  rewrite !not_elem_of_cons. split; [tauto|].
  intros [? ?]. repeat split; try done. apply not_elem_of_nil.
Qed.

Lemma settles_false answer :
  settles answer = false ↔ answer = "open" ∨ answer = "o".
Proof.
  unfold settles. rewrite negb_false_iff, JsFacts.includes_elem_of.
  rewrite !elem_of_cons, elem_of_nil. tauto.
Qed.

(** C4.  In the reconciliation of a pull request whose milestone is not
    the expected one: an affirmative answer (and, when the prompt flag is
    off, the default ["y"] without any question) issues the correction
    mutation with the id of the pull request and the id the expected
    milestone maps to, prints done and leaves the loop; the answers
    ["open"] and ["o"] open the pull request in the browser and the loop
    starts over on the next answer; any other answer prints done and
    leaves the loop without a mutation. *)
Theorem reconciliation_loop lib this pr milestone :
  Some (Pr.milestone pr) ≠ milestone →
  let shown := [ConsoleLog Blank; ConsoleLog (ShouldBeMilestoned pr milestone false)] in
  let mutation := Graphql (milestonePullRequest (Pr.id pr)
                    (milestoneTitlesToIds this !! Js.toPropertyKey milestone)) in
  (∀ answer rest,
      prompt this = true → answer ≠ "open" → answer ≠ "o" →
      isYes lib answer = true →
      makeValidateMilestone lib this pr milestone (answer :: rest)
      = mkRun (Returned tt)
          (shown ++ [ok_to_fix; ConsoleLog (Fixing pr milestone); mutation;
                     ConsoleLog Done])
          rest) ∧
  (∀ stdin,
      prompt this = false → isYes lib "y" = true →
      makeValidateMilestone lib this pr milestone stdin
      = mkRun (Returned tt)
          (shown ++ [ConsoleLog (Fixing pr milestone); mutation; ConsoleLog Done])
          stdin) ∧
  (∀ answer rest,
      prompt this = true → answer = "open" ∨ answer = "o" →
      ∃ again : Run unit,
        makeValidateMilestone lib this pr milestone rest = prepend shown again ∧
        makeValidateMilestone lib this pr milestone (answer :: rest)
        = prepend (shown ++ [ok_to_fix; OpenPull (Pr.number pr)]) again) ∧
  (∀ answer rest,
      prompt this = true → answer ≠ "open" → answer ≠ "o" →
      isYes lib answer = false →
      makeValidateMilestone lib this pr milestone (answer :: rest)
      = mkRun (Returned tt) (shown ++ [ok_to_fix; ConsoleLog Done]) rest).
Proof.
  intros Hne shown mutation. repeat split.
  - intros answer rest Hprompt Ho1 Ho2 Hyes.
    rewrite makeValidateMilestone_prompt by done. cbn [asked].
    rewrite (proj2 (settles_true answer)) by done.
    unfold settled. rewrite Hyes. reflexivity.
  - intros stdin Hprompt Hyes.
    rewrite makeValidateMilestone_no_prompt by done.
    unfold settled. rewrite Hyes. reflexivity.
  - intros answer rest Hprompt Hopen.
    exists (asked lib this pr milestone rest). split.
    + by rewrite makeValidateMilestone_prompt.
    + rewrite makeValidateMilestone_prompt by done. cbn [asked].
      rewrite (proj2 (settles_false answer)) by done.
      by rewrite prepend_prepend.
  - intros answer rest Hprompt Ho1 Ho2 Hno.
    rewrite makeValidateMilestone_prompt by done. cbn [asked].
    rewrite (proj2 (settles_true answer)) by done.
    unfold settled. rewrite Hno. reflexivity.
Qed.

(** An instance: pull request 1, listed under v3.4.0 and expected in
    v3.5.0, with the answers ["y"], none (prompt off) and ["n"]. *)
Lemma reconciliation_loop_witness :
  Some (Pr.milestone Sample.pr1_in_v3_4_0) ≠ Some "v3.5.0" ∧
  makeValidateMilestone Sample.lib (Sample.this true [Sample.v3_5_0 false []])
    Sample.pr1_in_v3_4_0 (Some "v3.5.0") ["y"; "n"]
  = mkRun (Returned tt)
      [ConsoleLog Blank;
       ConsoleLog (ShouldBeMilestoned Sample.pr1_in_v3_4_0 (Some "v3.5.0") false);
       ok_to_fix;
       ConsoleLog (Fixing Sample.pr1_in_v3_4_0 (Some "v3.5.0"));
       Graphql (milestonePullRequest "PR_1" (Some (Js.Str "MI_350")));
       ConsoleLog Done]
      ["n"] ∧
  makeValidateMilestone Sample.lib (Sample.this false [Sample.v3_5_0 false []])
    Sample.pr1_in_v3_4_0 (Some "v3.5.0") []
  = mkRun (Returned tt)
      [ConsoleLog Blank;
       ConsoleLog (ShouldBeMilestoned Sample.pr1_in_v3_4_0 (Some "v3.5.0") false);
       ConsoleLog (Fixing Sample.pr1_in_v3_4_0 (Some "v3.5.0"));
       Graphql (milestonePullRequest "PR_1" (Some (Js.Str "MI_350")));
       ConsoleLog Done]
      [] ∧
  makeValidateMilestone Sample.lib (Sample.this true [Sample.v3_5_0 false []])
    Sample.pr1_in_v3_4_0 (Some "v3.5.0") ["n"; "y"]
  = mkRun (Returned tt)
      [ConsoleLog Blank;
       ConsoleLog (ShouldBeMilestoned Sample.pr1_in_v3_4_0 (Some "v3.5.0") false);
       ok_to_fix;
       ConsoleLog Done]
      ["y"].
Proof.
  assert (Some (Pr.milestone Sample.pr1_in_v3_4_0) ≠ Some "v3.5.0") as Hne
    by discriminate.
  split; [exact Hne|].
  destruct (reconciliation_loop Sample.lib
              (Sample.this true [Sample.v3_5_0 false []])
              Sample.pr1_in_v3_4_0 (Some "v3.5.0") Hne)
    as (Hyes & _ & _ & Hother).
  destruct (reconciliation_loop Sample.lib
              (Sample.this false [Sample.v3_5_0 false []])
              Sample.pr1_in_v3_4_0 (Some "v3.5.0") Hne)
    as (_ & Hquiet & _ & _).
  split; [|split].
  - apply (Hyes "y" ["n"]); (reflexivity || discriminate).
  - apply (Hquiet []); reflexivity.
  - apply (Hother "n" ["y"]); (reflexivity || discriminate).
Defined.

(** C5.  When the milestone of the pull request is the expected one, the
    script reports ok and done and nothing else: no question is asked, no
    answer is read and no mutation is issued. *)
Theorem correct_milestone_left_alone lib this pr milestone stdin :
  Some (Pr.milestone pr) = milestone →
  (makeValidateMilestone lib this pr milestone stdin
   = mkRun (Returned tt)
       [ConsoleLog Blank; ConsoleLog (ShouldBeMilestoned pr milestone true);
        ConsoleLog Done]
       stdin)
  ∧ ∀ pullRequestId milestoneId,
      Graphql (milestonePullRequest pullRequestId milestoneId)
      ∉ emitted (makeValidateMilestone lib this pr milestone stdin).
Proof.
  intros Heq. rewrite makeValidateMilestone_correct by done.
  split; [reflexivity|]. intros pullRequestId milestoneId. simpl.
  rewrite !not_elem_of_cons. repeat split; try discriminate.
  apply not_elem_of_nil.
Qed.

(** An instance: pull request 1, listed under v3.4.0 and expected there. *)
Lemma correct_milestone_left_alone_witness :
  Some (Pr.milestone Sample.pr1_in_v3_4_0) = Some "v3.4.0" ∧
  makeValidateMilestone Sample.lib (Sample.this true [Sample.v3_4_0 false []])
    Sample.pr1_in_v3_4_0 (Some "v3.4.0") ["y"]
  = mkRun (Returned tt)
      [ConsoleLog Blank;
       ConsoleLog (ShouldBeMilestoned Sample.pr1_in_v3_4_0 (Some "v3.4.0") true);
       ConsoleLog Done]
      ["y"].
Proof.
  split; [reflexivity|].
  apply (correct_milestone_left_alone Sample.lib
           (Sample.this true [Sample.v3_4_0 false []])
           Sample.pr1_in_v3_4_0 (Some "v3.4.0") ["y"]).
  reflexivity.
Defined.

(** *** The dictionary from milestone titles to ids *)

Lemma inherited_lookup (names : list string) (key : string) :
  (list_to_map ((λ name, (name, Js.Inherited name)) <$> names)
     : gmap string Js.Value) !! key
  = if decide (key ∈ names) then Some (Js.Inherited key) else None.
Proof.
  induction names as [|name names IH].
  { rewrite fmap_nil, list_to_map_nil, lookup_empty.
    destruct (decide (key ∈ [])) as [Hin|_]; [|done].
    by apply elem_of_nil in Hin. }
  rewrite fmap_cons, list_to_map_cons. cbn [fst snd]. rewrite lookup_insert.
  destruct (decide (name = key)) as [->|Hne].
  - destruct (decide (key ∈ key :: names)) as [_|Hout]; [done|].
    destruct Hout. left.
  - rewrite IH.
    destruct (decide (key ∈ names)) as [Hin|Hout];
      destruct (decide (key ∈ name :: names)) as [Hin'|Hout']; try done.
    + destruct Hout'. by right.
    + apply elem_of_cons in Hin' as [->|?]; done.
Qed.

(** Reading the object literal [{}]. *)
Lemma empty_object_lookup (key : string) :
  Js.empty_object !! key
  = if decide (key ∈ Js.Object_prototype) then Some (Js.Inherited key) else None.
Proof. apply inherited_lookup. Qed.

(** Reading after an assignment. *)
Lemma set_lookup (obj : gmap string Js.Value) (key value key' : string) :
  Js.set obj key value !! key'
  = if decide (key = key' ∧ key ≠ "__proto__")
    then Some (Js.Str value) else obj !! key'.
Proof.
  unfold Js.set. destruct (String.eqb key "__proto__") eqn:Hproto.
  - apply String.eqb_eq in Hproto. rewrite decide_False; [done|]. tauto.
  - apply String.eqb_neq in Hproto.
    destruct (decide (key = key')) as [->|Hne].
    + rewrite lookup_insert_eq. by rewrite decide_True.
    + rewrite lookup_insert_ne by done. rewrite decide_False; [done|]. tauto.
Qed.

Lemma titles_to_ids_snoc (milestones : list Milestone.t) (node : Milestone.t) :
  titles_to_ids (milestones ++ [node])
  = Js.set (titles_to_ids milestones) (Milestone.title node) (Milestone.id node).
Proof. unfold titles_to_ids. by rewrite fold_left_app. Qed.

(** Milestones of other titles leave a property as it was. *)
Lemma titles_to_ids_skip (milestones : list Milestone.t)
    (obj : gmap string Js.Value) (title : string) :
  title ∉ Milestone.title <$> milestones →
  fold_left (λ obj node, Js.set obj (Milestone.title node) (Milestone.id node))
    milestones obj !! title
  = obj !! title.
Proof.
  revert obj. induction milestones as [|node milestones IH]; intros obj Hnot;
    [done|].
  rewrite fmap_cons, not_elem_of_cons in Hnot. destruct Hnot as [Hne Hnot].
  cbn [fold_left]. rewrite IH, set_lookup by done.
  rewrite decide_False; [done|]. intros [? _]. congruence.
Qed.

(** A title no milestone carries reads as [{}] does. *)
Lemma titles_to_ids_untitled (milestones : list Milestone.t) (title : string) :
  title ∉ Milestone.title <$> milestones →
  titles_to_ids milestones !! title
  = if decide (title ∈ Js.Object_prototype)
    then Some (Js.Inherited title) else None.
Proof.
  intros Hnot. unfold titles_to_ids.
  by rewrite titles_to_ids_skip, empty_object_lookup.
Qed.

(** A string that is read was stored for a milestone of that title. *)
Lemma titles_to_ids_found (milestones : list Milestone.t) (title id' : string) :
  titles_to_ids milestones !! title = Some (Js.Str id') →
  title ≠ "__proto__"
  ∧ ∃ node, node ∈ milestones
            ∧ Milestone.title node = title ∧ Milestone.id node = id'.
Proof.
  induction milestones as [|last milestones IH] using rev_ind.
  { unfold titles_to_ids. simpl. rewrite empty_object_lookup.
    by case_decide. }
  rewrite titles_to_ids_snoc, set_lookup.
  destruct (decide (_ ∧ _)) as [[<- Hproto]|Hother].
  - intros [= <-]. split; [done|]. exists last.
    split; [|done]. apply elem_of_app. right. left.
  - intros [Hproto (node & Hnode & Hrest)]%IH. split; [done|].
    exists node. split; [|done]. apply elem_of_app. by left.
Qed.

(** A milestone whose title is not [__proto__] has its title mapped to
    the id of some milestone of that title. *)
Lemma titles_to_ids_stored (milestones : list Milestone.t) (node : Milestone.t) :
  node ∈ milestones →
  Milestone.title node ≠ "__proto__" →
  ∃ id', titles_to_ids milestones !! Milestone.title node = Some (Js.Str id').
Proof.
  induction milestones as [|last milestones IH] using rev_ind;
    intros Hnode Hproto.
  { by apply elem_of_nil in Hnode. }
  rewrite titles_to_ids_snoc, set_lookup.
  destruct (decide (_ ∧ _)) as [_|Hother]; [by eexists|].
  apply elem_of_app in Hnode as [Hnode|Hnode]; [by apply IH|].
  apply list_elem_of_singleton in Hnode as ->. by destruct Hother.
Qed.

(** With distinct titles, a title is mapped to the id of its milestone. *)
Lemma titles_to_ids_lookup (milestones : list Milestone.t) (node : Milestone.t) :
  NoDup (Milestone.title <$> milestones) →
  node ∈ milestones →
  Milestone.title node ≠ "__proto__" →
  titles_to_ids milestones !! Milestone.title node
  = Some (Js.Str (Milestone.id node)).
Proof.
  intros Hnodup Hnode Hproto.
  destruct (titles_to_ids_stored milestones node Hnode Hproto) as (id' & Hid).
  rewrite Hid. f_equal. f_equal.
  apply titles_to_ids_found in Hid as (_ & node' & Hnode' & Htitle & <-).
  apply list_elem_of_lookup in Hnode as (i & Hi).
  apply list_elem_of_lookup in Hnode' as (i' & Hi').
  assert (i' = i) as ->.
  { apply (NoDup_lookup _ _ _ (Milestone.title node) Hnodup);
      rewrite list_lookup_fmap; [by rewrite Hi', <- Htitle|by rewrite Hi]. }
  congruence.
Qed.

Example first_line_of_message :
  first_line "fix: a (#1)
Co-authored-by: b" = "fix: a (#1)".
Proof. reflexivity. Qed.

Lemma elem_of_without_chore (milestones : list Milestone.t) (node : Milestone.t) :
  node ∈ without_chore milestones
  ↔ node ∈ milestones ∧ Milestone.title node ≠ "chore".
Proof. unfold without_chore. rewrite list_elem_of_filter. tauto. Qed.

Lemma titles_without_chore (milestones : list Milestone.t) (title : string) :
  title ∈ Milestone.title <$> without_chore milestones
  ↔ title ≠ "chore" ∧ title ∈ Milestone.title <$> milestones.
Proof.
  rewrite !list_elem_of_fmap. split.
  - intros (node & -> & Hnode). apply elem_of_without_chore in Hnode as [? ?].
    split; [done|]. by exists node.
  - intros (Hne & node & -> & Hnode). exists node. split; [done|].
    by apply elem_of_without_chore.
Qed.

(** The strings of the dictionary the handler binds are stored under the
    titles of the fetched milestones other than "chore" and [__proto__]. *)
Lemma bound_keys host prompt' (key : string) :
  (∃ id', milestoneTitlesToIds (bound host prompt') !! key = Some (Js.Str id'))
  ↔ key ≠ "chore" ∧ key ≠ "__proto__"
    ∧ ∃ node, node ∈ milestones_nodes host ∧ Milestone.title node = key.
Proof.
  unfold bound, validated. cbn [milestoneTitlesToIds]. split.
  - intros (id' & (Hproto & node & Hnode & <- & _)%titles_to_ids_found).
    apply elem_of_without_chore in Hnode as [Hnode Hchore].
    repeat split; try done. by exists node.
  - intros (Hchore & Hproto & node & Hnode & <-).
    apply titles_to_ids_stored; [|done]. by apply elem_of_without_chore.
Qed.

(** C10, as the code has it.  The strings of the dictionary handed to
    the reconciliation are stored under exactly the titles of the fetched
    milestones other than "chore" (and other than [__proto__], which the
    object does not store).  Hence, when no fetched milestone is titled as
    the expected milestone of a mismatched pull request, and that title is
    not the name of a property every object inherits, the dictionary has
    nothing under it, and an affirmative answer (or the default, when the
    prompt flag is off) still makes the script send the mutation, with an
    undefined milestone id. *)
Theorem missing_milestone_undefined_id lib host prompt' pr title :
  (∀ node, node ∈ milestones_nodes host → Milestone.title node ≠ title) →
  title ∉ Js.Object_prototype →
  Pr.milestone pr ≠ title →
  let this := {| prompt := prompt';
                 milestoneTitlesToIds :=
                   titles_to_ids (without_chore (milestones_nodes host)) |} in
  let shown := [ConsoleLog Blank;
                ConsoleLog (ShouldBeMilestoned pr (Some title) false)] in
  let mutation := Graphql (milestonePullRequest (Pr.id pr) None) in
  (∀ key,
      (∃ id', milestoneTitlesToIds this !! key = Some (Js.Str id'))
      ↔ key ≠ "chore" ∧ key ≠ "__proto__"
        ∧ ∃ node, node ∈ milestones_nodes host ∧ Milestone.title node = key)
  ∧ milestoneTitlesToIds this !! title = None
  ∧ (∀ answer rest,
       prompt' = true → answer ≠ "open" → answer ≠ "o" →
       isYes lib answer = true →
       (shown ++ [ok_to_fix; ConsoleLog (Fixing pr (Some title)); mutation])
         `prefix_of`
         emitted (makeValidateMilestone lib this pr (Some title) (answer :: rest)))
  ∧ (∀ stdin,
       prompt' = false → isYes lib "y" = true →
       (shown ++ [ConsoleLog (Fixing pr (Some title)); mutation])
         `prefix_of`
         emitted (makeValidateMilestone lib this pr (Some title) stdin)).
Proof.
  intros Hmissing Hown Hne this shown mutation.
  assert (titles_to_ids (without_chore (milestones_nodes host)) !! title = None)
    as Hid.
  { rewrite titles_to_ids_untitled.
    - by rewrite decide_False.
    - rewrite titles_without_chore.
      intros [_ (node & -> & Hnode)%list_elem_of_fmap]. by eapply Hmissing. }
  assert (Some (Pr.milestone pr) ≠ Some title) as Hne' by congruence.
  split; [apply (bound_keys host prompt')|]. split; [done|]. split.
  - intros answer rest Hprompt Ho1 Ho2 Hyes.
    rewrite makeValidateMilestone_prompt by done. cbn [asked].
    rewrite (proj2 (settles_true answer)) by done.
    unfold settled, fixing, correction. rewrite Hyes.
    change (Js.toPropertyKey (Some title)) with title.
    cbn [this milestoneTitlesToIds]. rewrite Hid.
    by exists [ConsoleLog Done].
  - intros stdin Hprompt Hyes.
    rewrite makeValidateMilestone_no_prompt by done.
    unfold settled, fixing, correction. rewrite Hyes.
    change (Js.toPropertyKey (Some title)) with title.
    cbn [this milestoneTitlesToIds]. rewrite Hid.
    by exists [ConsoleLog Done].
Qed.

(** An instance: no milestone titled "v4.0.0" is open, the prompt is off. *)
Lemma missing_milestone_undefined_id_witness :
  (∀ node, node ∈ [Sample.chore false []; Sample.v3_4_0 false [Sample.pr1]] →
           Milestone.title node ≠ "v4.0.0") ∧
  ("v4.0.0" ∉ Js.Object_prototype) ∧
  Pr.milestone Sample.pr1_in_v3_4_0 ≠ "v4.0.0" ∧
  [ConsoleLog Blank;
   ConsoleLog (ShouldBeMilestoned Sample.pr1_in_v3_4_0 (Some "v4.0.0") false);
   ConsoleLog (Fixing Sample.pr1_in_v3_4_0 (Some "v4.0.0"));
   Graphql (milestonePullRequest "PR_1" None)]
    `prefix_of`
    emitted
      (makeValidateMilestone Sample.lib
         (Sample.this false (without_chore [Sample.chore false [];
                                            Sample.v3_4_0 false [Sample.pr1]]))
         Sample.pr1_in_v3_4_0 (Some "v4.0.0") []).
Proof.
  assert (∀ node,
            node ∈ [Sample.chore false []; Sample.v3_4_0 false [Sample.pr1]] →
            Milestone.title node ≠ "v4.0.0") as Hmissing.
  { intros node Hnode.
    apply elem_of_cons in Hnode as [->|Hnode]; [discriminate|].
    apply elem_of_cons in Hnode as [->|Hnode]; [discriminate|].
    by apply elem_of_nil in Hnode. }
  assert ("v4.0.0" ∉ Js.Object_prototype) as Hown.
  { apply (bool_decide_unpack _). by vm_compute. }
  assert (Pr.milestone Sample.pr1_in_v3_4_0 ≠ "v4.0.0") as Hne by discriminate.
  split; [exact Hmissing|]. split; [exact Hown|]. split; [exact Hne|].
  destruct (missing_milestone_undefined_id Sample.lib
              (Sample.host (Some "token") 0
                 [Sample.chore false []; Sample.v3_4_0 false [Sample.pr1]])
              false Sample.pr1_in_v3_4_0 "v4.0.0" Hmissing Hown Hne)
    as (_ & _ & _ & Hquiet).
  apply (Hquiet []); reflexivity.
Defined.

(** What the script sends when the expected milestone is a name every
    object inherits, as for the release branch release/major/constructor:
    no milestone has that title, and the id that is read is not
    undefined. *)
Example inherited_name_run :
  makeValidateMilestone Sample.lib
    (Sample.this false [Sample.v3_4_0 false [Sample.pr1]])
    Sample.pr1_in_v3_4_0 (Some "constructor") []
  = mkRun (Returned tt)
      [ConsoleLog Blank;
       ConsoleLog (ShouldBeMilestoned Sample.pr1_in_v3_4_0 (Some "constructor") false);
       ConsoleLog (Fixing Sample.pr1_in_v3_4_0 (Some "constructor"));
       Graphql (milestonePullRequest "PR_1" (Some (Js.Inherited "constructor")));
       ConsoleLog Done]
      [].
Proof. by vm_compute. Qed.

(** Without the condition on inherited names the statement fails: no
    milestone is titled "constructor", the answer is the affirmative
    default, and the mutation that is sent does not carry an undefined
    milestone id. *)
Lemma missing_milestone_counterexample :
  ¬ ((∀ node, node ∈ [Sample.v3_4_0 false [Sample.pr1]] →
              Milestone.title node ≠ "constructor") →
     Pr.milestone Sample.pr1_in_v3_4_0 ≠ "constructor" →
     isYes Sample.lib "y" = true →
     Graphql (milestonePullRequest "PR_1" None)
     ∈ emitted
         (makeValidateMilestone Sample.lib
            (Sample.this false (without_chore [Sample.v3_4_0 false [Sample.pr1]]))
            Sample.pr1_in_v3_4_0 (Some "constructor") [])).
Proof.
  intros Hclaim.
  assert (Graphql (milestonePullRequest "PR_1" None)
          ∈ emitted
              (makeValidateMilestone Sample.lib
                 (Sample.this false
                    (without_chore [Sample.v3_4_0 false [Sample.pr1]]))
                 Sample.pr1_in_v3_4_0 (Some "constructor") [])) as Hin.
  { apply Hclaim; [|discriminate|reflexivity].
    intros node Hnode. apply list_elem_of_singleton in Hnode as ->. discriminate. }
  change (without_chore [Sample.v3_4_0 false [Sample.pr1]])
    with [Sample.v3_4_0 false [Sample.pr1]] in Hin.
  rewrite inherited_name_run in Hin. cbn [emitted] in Hin.
  repeat (apply elem_of_cons in Hin as [Hin|Hin]; [discriminate Hin|]).
  by apply elem_of_nil in Hin.
Qed.

(** *** Events of a computation *)

Lemma always_mono {A} (P Q : Event → Prop) (m : M A) :
  (∀ e, P e → Q e) → always P m → always Q m.
Proof. intros HPQ Hm stdin. eapply Forall_impl; [apply Hm|done]. Qed.

Lemma always_ret {A} P (a : A) : always P (ret a).
Proof. intros stdin. constructor. Qed.

Lemma always_emit P e : P e → always P (emit e).
Proof. intros He stdin. by repeat constructor. Qed.

Lemma always_process_exit {A} P code : always P (@process_exit A code).
Proof. intros stdin. constructor. Qed.

Lemma always_question P p : P (Question p) → always P (question p).
Proof. intros Hp [|answer rest]; by repeat constructor. Qed.

Lemma always_bind {A B} P (m : M A) (k : A → M B) :
  always P m → (∀ a, always P (k a)) → always P (bind m k).
Proof.
  intros Hm Hk stdin. unfold bind. specialize (Hm stdin).
  destruct (m stdin) as [[a|code|error| |] es rest]; simpl in *; try done.
  apply Forall_app. split; [done|apply Hk].
Qed.

Lemma always_when P cond body : always P body → always P (when cond body).
Proof. destruct cond; [done|]. intros _. apply always_ret. Qed.

Lemma always_for_of {A} P (xs : list A) (body : A → M unit) :
  (∀ x, x ∈ xs → always P (body x)) → always P (for_of xs body).
Proof.
  induction xs as [|x xs IH]; intros Hbody; simpl; [apply always_ret|].
  apply always_bind; [apply Hbody; left|].
  intros _. apply IH. intros y Hy. apply Hbody. by right.
Qed.

Lemma always_prepend {A} P es (m : M A) stdin :
  Forall P es → always P m → Forall P (emitted (prepend es (m stdin))).
Proof. intros Hes Hm. simpl. apply Forall_app. split; [done|apply Hm]. Qed.

(** *** One iteration of the [for] loop *)

Lemma asked_reconciles lib this pr milestone stdin :
  Forall (reconciles this pr milestone)
    (emitted (asked lib this pr milestone stdin)).
Proof.
  induction stdin as [|answer rest IH]; cbn [asked].
  - repeat constructor.
  - destruct (settles answer); simpl.
    + constructor; [constructor|]. unfold settled, fixing.
      destruct (isYes lib answer); repeat constructor.
    + by repeat constructor.
Qed.

Lemma makeValidateMilestone_reconciles lib this pr milestone :
  always (reconciles this pr milestone)
    (makeValidateMilestone lib this pr milestone).
Proof.
  intros stdin.
  destruct (decide (Some (Pr.milestone pr) = milestone)) as [Heq|Hne].
  { rewrite makeValidateMilestone_correct by done. repeat constructor. }
  destruct (prompt this) eqn:Hprompt.
  - rewrite makeValidateMilestone_prompt by done. simpl.
    repeat constructor. apply asked_reconciles.
  - rewrite makeValidateMilestone_no_prompt by done. simpl.
    unfold settled, fixing. destruct (isYes lib "y"); repeat constructor.
Qed.

Lemma isCommitInReleaseBranch_decide lib message' stdin :
  isCommitInReleaseBranch lib message' stdin
  = mkRun (Returned (bool_decide (message' ∈ message <$> releaseCommits lib)))
      [GetReleaseCommits] stdin.
Proof.
  unfold isCommitInReleaseBranch. rewrite bind_emit. unfold prepend, ret. simpl.
  f_equal. f_equal. apply eq_true_iff_eq.
  rewrite existsb_exists, bool_decide_eq_true, list_elem_of_fmap. split.
  - intros (commit & Hin & Heq). apply String.eqb_eq in Heq.
    exists commit. split; [done|]. by apply list_elem_of_In.
  - intros (commit & -> & Hin). exists commit.
    split; [by apply list_elem_of_In|apply String.eqb_refl].
Qed.

(** The loop body classifies the pull request, then reconciles it with
    the milestone the specification expects. *)
Lemma validate_expected lib this branch pr stdin :
  validate lib this branch pr stdin
  = prepend (classification lib pr)
      (makeValidateMilestone lib this pr
         (expected_milestone lib branch (message (Pr.mergeCommit pr))) stdin).
Proof.
  unfold validate, classification, expected_milestone, console_log.
  rewrite bind_emit. unfold bind at 1.
  rewrite (isCommitInReleaseBranch_decide lib). simpl.
  destruct (decide (_ ∈ _)) as [Hin|Hout].
  - rewrite (bool_decide_eq_true_2 _ Hin). reflexivity.
  - rewrite (bool_decide_eq_false_2 _ Hout).
    unfold await_isCommitInRef. rewrite bind_bind, bind_emit, bind_ret.
    destruct (isCommitInRef lib "next" _); reflexivity.
Qed.

Lemma validate_validates lib this branch pr :
  always (validates lib this branch pr) (validate lib this branch pr).
Proof.
  intros stdin. rewrite validate_expected.
  apply always_prepend.
  - unfold classification. destruct (decide (_ ∈ _)); repeat constructor.
  - eapply always_mono; [|apply makeValidateMilestone_reconciles].
    intros e He. by constructor.
Qed.

(** *** How a reconciliation ends *)

Lemma decisions_cons answer rest :
  decisions (answer :: rest)
  = if settles answer then S (decisions rest) else decisions rest.
Proof.
  unfold decisions. rewrite filter_cons.
  destruct (settles answer); by case_decide.
Qed.

Lemma asked_ends lib this pr milestone stdin :
  (outcome (asked lib this pr milestone stdin) = Returned tt
   ∨ outcome (asked lib this pr milestone stdin) = AwaitingInput)
  ∧ (0 < decisions stdin →
     outcome (asked lib this pr milestone stdin) = Returned tt)%nat
  ∧ decisions (unread (asked lib this pr milestone stdin))
    = pred (decisions stdin).
Proof.
  induction stdin as [|answer rest (IH1 & IH2 & IH3)]; cbn [asked].
  - split; [by right|]. split; [unfold decisions; simpl; lia|done].
  - rewrite decisions_cons. destruct (settles answer); simpl.
    + split; [by left|done].
    + done.
Qed.

Lemma makeValidateMilestone_ends lib this pr milestone stdin :
  (outcome (makeValidateMilestone lib this pr milestone stdin) = Returned tt
   ∨ outcome (makeValidateMilestone lib this pr milestone stdin) = AwaitingInput)
  ∧ (prompt this = false ∨ 0 < decisions stdin →
     outcome (makeValidateMilestone lib this pr milestone stdin) = Returned tt)%nat
  ∧ (pred (decisions stdin)
     ≤ decisions (unread (makeValidateMilestone lib this pr milestone stdin)))%nat.
Proof.
  destruct (decide (Some (Pr.milestone pr) = milestone)) as [Heq|Hne].
  { rewrite makeValidateMilestone_correct by done. simpl.
    split; [by left|]. split; [done|lia]. }
  destruct (prompt this) eqn:Hprompt.
  - rewrite makeValidateMilestone_prompt by done. simpl.
    destruct (asked_ends lib this pr milestone stdin) as (H1 & H2 & H3).
    split; [done|]. split; [|lia]. intros [?|?]; [done|auto].
  - rewrite makeValidateMilestone_no_prompt by done. simpl.
    split; [by left|]. split; [done|lia].
Qed.

Lemma validate_ends lib this branch pr stdin :
  (outcome (validate lib this branch pr stdin) = Returned tt
   ∨ outcome (validate lib this branch pr stdin) = AwaitingInput)
  ∧ (prompt this = false ∨ 0 < decisions stdin →
     outcome (validate lib this branch pr stdin) = Returned tt)%nat
  ∧ (pred (decisions stdin)
     ≤ decisions (unread (validate lib this branch pr stdin)))%nat.
Proof. rewrite validate_expected. apply makeValidateMilestone_ends. Qed.

(** The loop ends when the script does not prompt, or when there is a
    settling answer for every pull request; it never exits the process
    and never runs out of fuel. *)
Lemma for_of_validate_ends lib this branch prs stdin :
  (outcome (for_of prs (validate lib this branch) stdin) = Returned tt
   ∨ outcome (for_of prs (validate lib this branch) stdin) = AwaitingInput)
  ∧ (prompt this = false ∨ length prs ≤ decisions stdin →
     outcome (for_of prs (validate lib this branch) stdin) = Returned tt)%nat.
Proof.
  revert stdin. induction prs as [|pr prs IH]; intros stdin; cbn [for_of].
  { split; [by left|done]. }
  destruct (validate_ends lib this branch pr stdin) as (H1 & H2 & H3).
  unfold bind.
  destruct (validate lib this branch pr stdin) as [[[]|code|error| |] es rest];
    simpl in *.
  - destruct (IH rest) as [IH1 IH2]. split; [done|].
    intros [Hquiet|Henough]; apply IH2; [by left|right; lia].
  - by destruct H1.
  - by destruct H1.
  - split; [by right|]. intros [Hquiet|Henough].
    + by specialize (H2 (or_introl Hquiet)).
    + assert (0 < decisions stdin)%nat as Hpos by lia.
      by specialize (H2 (or_intror Hpos)).
  - by destruct H1.
Qed.

(** *** The handler, path by path *)

Lemma has_next_page_true (milestones : list Milestone.t) :
  has_next_page milestones = true
  ↔ ∃ node, node ∈ milestones ∧ needs_pagination node.
Proof.
  unfold has_next_page, needs_pagination.
  induction milestones as [|node milestones IH]; simpl.
  - split; [done|]. intros (node & Hnode & _). by apply elem_of_nil in Hnode.
  - rewrite negb_andb, negb_involutive, orb_true_iff, IH. split.
    + intros [Hmore|(node' & Hnode' & Hmore)].
      * exists node. split; [left|done].
      * exists node'. split; [by right|done].
    + intros (node' & [->|Hnode']%elem_of_cons & Hmore); [by left|].
      right. by exists node'.
Qed.

Section Handler.

Variable lib : ReleaseLib.
Variable host : Host.
Variable prompt' : bool.

Lemma handler_no_credential stdin :
  Js.truthy (GITHUB_TOKEN host) = false →
  handler lib host prompt' stdin
  = mkRun (ProcessExit 1)
      [ConsoleLog (Text "You have to set the GITHUB_TOKEN env var")] stdin.
Proof. intros Htoken. unfold handler. rewrite Htoken. reflexivity. Qed.

Lemma handler_open_cherry_picks stdin :
  Js.truthy (GITHUB_TOKEN host) = true →
  0 < openCherryPickPRs_totalCount host →
  handler lib host prompt' stdin
  = mkRun (ProcessExit 1)
      [Graphql getOpenCherryPickPRsQuery;
       ConsoleLog (Text "There are open cherry-pick PRs; get them merged before continuing");
       OpenCherryPickPRs]
      stdin.
Proof.
  intros Htoken Hcount%Z.ltb_lt. unfold handler, graphql_getOpenCherryPickPRsQuery.
  rewrite Htoken. cbn [negb when]. rewrite bind_ret, bind_bind, bind_emit, bind_ret.
  rewrite Hcount. reflexivity.
Qed.

Lemma handler_needs_pagination stdin :
  Js.truthy (GITHUB_TOKEN host) = true →
  ¬ 0 < openCherryPickPRs_totalCount host →
  has_next_page (validated host) = true →
  handler lib host prompt' stdin
  = mkRun (ProcessExit 1)
      [Graphql getOpenCherryPickPRsQuery;
       Graphql getPRs;
       ConsoleLog (Text "A milestone has a next page (i.e. a lot of PRs); this script needs to be updated")]
      stdin.
Proof.
  intros Htoken Hcount%Z.ltb_nlt Hmore.
  unfold handler, graphql_getOpenCherryPickPRsQuery, graphql_getPRs.
  rewrite Htoken. cbn [negb when]. rewrite bind_ret, bind_bind, bind_emit, bind_ret.
  rewrite Hcount. cbn [when]. rewrite bind_ret, bind_bind, bind_emit, bind_ret.
  cbv zeta. fold (validated host). rewrite Hmore. reflexivity.
Qed.

Lemma handler_clear stdin :
  clear host →
  handler lib host prompt' stdin
  = prepend [Graphql getOpenCherryPickPRsQuery; Graphql getPRs;
             LogSection ("Confirm PRs in milestones" +:+ Js.newline);
             ConsoleLog (Text ("If you see more than one version here (e.g. v3.6.0 and v3.5.0), you need to close the older one(s)" +:+ Js.newline))]
      ((answer ← question ("Ok to review PRs in milestone "
                             +:+ Js.join ", " (Milestone.title <$> validated host)
                             +:+ " ? [Y/n/] > ");
        console_log Blank;;
        when (String.eqb answer "n") (process_exit 1);;
        emit UpdateRemotes;;
        prs ← or_throw (collect_prs (validated host));
        branch ← await_getReleaseBranch lib;
        console_log Blank;;
        for_of prs (validate lib (bound host prompt') branch)) stdin).
Proof.
  intros (Htoken & Hcount%Z.ltb_nlt & Hmore).
  unfold handler, graphql_getOpenCherryPickPRsQuery, graphql_getPRs.
  rewrite Htoken. cbn [negb when]. rewrite bind_ret, bind_bind, bind_emit, bind_ret.
  rewrite Hcount. cbn [when]. rewrite bind_ret, bind_bind, bind_emit, bind_ret.
  cbv zeta. fold (validated host). rewrite Hmore. cbn [when].
  rewrite bind_ret. unfold console_log at 1. rewrite !bind_emit.
  rewrite !prepend_prepend. reflexivity.
Qed.

Lemma handler_unanswered :
  clear host → handler lib host prompt' [] = mkRun AwaitingInput (preliminaries host) [].
Proof. intros Hclear. rewrite handler_clear by done. reflexivity. Qed.

Lemma handler_declined rest :
  clear host →
  handler lib host prompt' ("n" :: rest)
  = mkRun (ProcessExit 1) (preliminaries host ++ [ConsoleLog Blank]) rest.
Proof. intros Hclear. rewrite handler_clear by done. reflexivity. Qed.

(** Line 94 throws after the remotes are updated and before the release
    branch is asked for. *)
Lemma handler_thrown answer rest :
  clear host → answer ≠ "n" →
  collect_prs (validated host) = None →
  handler lib host prompt' (answer :: rest)
  = mkRun (Thrown TypeError)
      (preliminaries host ++ [ConsoleLog Blank; UpdateRemotes]) rest.
Proof.
  intros Hclear Hanswer%String.eqb_neq Hnone. rewrite handler_clear by done.
  rewrite bind_question_cons. unfold console_log at 1. rewrite bind_emit.
  rewrite Hanswer. cbn [when]. rewrite bind_ret, bind_emit, Hnone.
  reflexivity.
Qed.

Lemma handler_reviewed answer rest prs :
  clear host → answer ≠ "n" →
  collect_prs (validated host) = Some prs →
  handler lib host prompt' (answer :: rest)
  = prepend (preliminaries host ++ preparations)
      (for_of prs
         (validate lib (bound host prompt') (getReleaseBranch lib)) rest).
Proof.
  intros Hclear Hanswer%String.eqb_neq Hprs. rewrite handler_clear by done.
  rewrite bind_question_cons. unfold console_log at 1. rewrite bind_emit.
  rewrite Hanswer. cbn [when]. rewrite bind_ret, bind_emit, Hprs.
  cbn [or_throw]. rewrite bind_ret.
  unfold await_getReleaseBranch. rewrite bind_bind, bind_emit, bind_ret.
  unfold console_log at 1. rewrite bind_emit, !prepend_prepend. reflexivity.
Qed.

(** Every run takes one of the seven paths. *)
Lemma handler_path stdin :
  path lib host prompt' stdin (handler lib host prompt' stdin).
Proof.
  destruct (Js.truthy (GITHUB_TOKEN host)) eqn:Htoken; cycle 1.
  { rewrite handler_no_credential by done. by constructor. }
  destruct (decide (0 < openCherryPickPRs_totalCount host)) as [Hcount|Hcount].
  { rewrite handler_open_cherry_picks by done. by constructor. }
  destruct (has_next_page (validated host)) eqn:Hmore.
  { rewrite handler_needs_pagination by done. by constructor. }
  assert (clear host) as Hclear by done.
  destruct stdin as [|answer rest].
  { rewrite handler_unanswered by done. by constructor. }
  destruct (decide (answer = "n")) as [->|Hanswer].
  { rewrite handler_declined by done. by constructor. }
  destruct (collect_prs (validated host)) as [prs|] eqn:Hprs.
  - rewrite (handler_reviewed _ _ prs) by done. by constructor.
  - rewrite handler_thrown by done. by constructor.
Qed.

(** Whatever a run emits either precedes the loop or belongs to the
    validation of a collected pull request. *)
Lemma handler_events :
  always (λ e, preliminary e
               ∨ ∃ pr, pr ∈ collected host
                       ∧ validates lib (bound host prompt') (getReleaseBranch lib) pr e)
    (handler lib host prompt').
Proof.
  intros stdin.
  destruct (handler_path stdin) as [| | | | | |answer rest prs Hclear Hanswer Hprs];
    try (repeat (constructor; [by left|]); by constructor).
  apply always_prepend.
  { repeat (constructor; [by left|]). constructor. }
  apply always_for_of. intros pr Hpr.
  eapply always_mono; [|apply validate_validates].
  intros e He. right. exists pr. unfold collected. by rewrite Hprs.
Qed.

(** Past the guards and not declined, the run returns, waits, or dies on
    line 94. *)
Lemma handler_ends stdin :
  clear host → ¬ declined stdin →
  (outcome (handler lib host prompt' stdin) = Returned tt
   ∨ outcome (handler lib host prompt' stdin) = AwaitingInput
   ∨ outcome (handler lib host prompt' stdin) = Thrown TypeError)
  ∧ (stdin ≠ [] →
     (outcome (handler lib host prompt' stdin) = Thrown TypeError
      ↔ collect_prs (validated host) = None))
  ∧ (stdin ≠ [] →
     collect_prs (validated host) ≠ None →
     prompt' = false
     ∨ (length (collected host) ≤ decisions (tail stdin))%nat →
     outcome (handler lib host prompt' stdin) = Returned tt).
Proof.
  intros (Htoken & Hcount & Hmore) Hanswer.
  destruct (handler_path stdin) as [| | | | | |answer rest prs Hclear Hne Hprs];
    try congruence; simpl.
  - split; [by auto|done].
  - by destruct Hanswer.
  - split; [by auto|]. split; [done|]. intros _ Hsome. by destruct Hsome.
  - destruct (for_of_validate_ends lib (bound host prompt') (getReleaseBranch lib)
                prs rest) as [Hends Henough].
    unfold collected. rewrite Hprs. cbn [default].
    split; [destruct Hends; by auto|]. split.
    + intros _. split; [|done]. intros Hthrown.
      destruct Hends as [H|H]; by rewrite H in Hthrown.
    + intros _ _. apply Henough.
Qed.

End Handler.

(** *** Collecting the pull requests *)

Lemma milestoned_None node raw :
  milestoned node raw = None ↔ PullRequest.mergeCommit raw = None.
Proof. unfold milestoned. by destruct (PullRequest.mergeCommit raw). Qed.

Lemma elem_of_mapM {A B} (f : A → option B) (l : list A) (k : list B) (y : B) :
  mapM f l = Some k → y ∈ k ↔ ∃ x, x ∈ l ∧ f x = Some y.
Proof.
  intros Hall%mapM_Some. induction Hall as [|x y' l k Hx Hall IH].
  { split; [by intros []%elem_of_nil|by intros (x & []%elem_of_nil & _)]. }
  rewrite elem_of_cons, IH. split.
  - intros [->|(x' & Hx' & Hy)].
    + exists x. split; [left|done].
    + exists x'. split; [by right|done].
  - intros (x' & [->|Hx']%elem_of_cons & Hy).
    + left. congruence.
    + right. by exists x'.
Qed.

(** Line 94 throws iff a milestone lists a pull request without merge
    commit. *)
Lemma collect_prs_None (milestones : list Milestone.t) :
  collect_prs milestones = None
  ↔ ∃ node, node ∈ milestones ∧ lists_unmerged node.
Proof.
  unfold collect_prs, lists_unmerged.
  rewrite fmap_None, mapM_None, Exists_exists.
  split; intros (node & Hnode & Hraw); exists node; (split; [done|]).
  - apply mapM_None, Exists_exists in Hraw as (raw & Hraw & Hnone).
    exists raw. split; [done|]. by apply milestoned_None in Hnone.
  - destruct Hraw as (raw & Hraw & Hnone).
    apply mapM_None, Exists_exists. exists raw. split; [done|].
    by apply milestoned_None.
Qed.

Lemma elem_of_collect_prs (milestones : list Milestone.t) (prs : list Pr.t)
    (pr : Pr.t) :
  collect_prs milestones = Some prs →
  pr ∈ prs
  ↔ (Pr.id pr ∉ IGNORE_LIST)
    ∧ ∃ node raw, node ∈ milestones
                  ∧ raw ∈ nodes (Milestone.pullRequests node)
                  ∧ milestoned node raw = Some pr.
Proof.
  unfold collect_prs. intros (lists & Hlists & ->)%fmap_Some.
  rewrite list_elem_of_filter, JsFacts.includes_not_elem_of.
  rewrite (list_elem_of_In (concat _)), in_concat.
  split; intros [Hid Hpr]; (split; [done|]).
  - destruct Hpr as (list' & Hlist%list_elem_of_In & Hpr%list_elem_of_In).
    apply (elem_of_mapM _ _ _ _ Hlists) in Hlist as (node & Hnode & Hlist).
    apply (elem_of_mapM _ _ _ _ Hlist) in Hpr as (raw & Hraw & Hpr).
    by exists node, raw.
  - destruct Hpr as (node & raw & Hnode & Hraw & Hpr).
    assert (is_Some (mapM (milestoned node)
                       (nodes (Milestone.pullRequests node))))
      as [list' Hlist].
    { apply mapM_Some in Hlists.
      apply list_elem_of_lookup in Hnode as (i & Hi).
      destruct (Forall2_lookup_l _ _ _ _ _ Hlists Hi) as (list' & _ & Hlist).
      by exists list'. }
    exists list'. split; apply list_elem_of_In.
    + apply (elem_of_mapM _ _ _ _ Hlists). by exists node.
    + apply (elem_of_mapM _ _ _ _ Hlist). by exists raw.
Qed.

Lemma elem_of_collected host pr :
  pr ∈ collected host
  ↔ ∃ prs, collect_prs (validated host) = Some prs ∧ pr ∈ prs.
Proof.
  unfold collected. destruct (collect_prs (validated host)) as [prs|]; simpl.
  - split; [by exists prs|]. by intros (prs' & [= <-] & Hpr).
  - split; [by intros []%elem_of_nil|by intros (prs' & [=] & _)].
Qed.

(** *** Guards and exit codes *)

(** C8.  With the credential set, a positive count of open cherry-pick
    pull requests makes the script report them and exit with code 1; the
    milestones are not fetched, nothing is asked and no pull request is
    processed. *)
Theorem open_cherry_picks_stop lib host prompt' stdin :
  Js.truthy (GITHUB_TOKEN host) = true →
  0 < openCherryPickPRs_totalCount host →
  (handler lib host prompt' stdin
   = mkRun (ProcessExit 1)
       [Graphql getOpenCherryPickPRsQuery;
        ConsoleLog (Text "There are open cherry-pick PRs; get them merged before continuing");
        OpenCherryPickPRs]
       stdin)
  ∧ exit_status (outcome (handler lib host prompt' stdin)) = Some 1
  ∧ (Graphql getPRs ∉ emitted (handler lib host prompt' stdin))
  ∧ Forall (λ e, processes_pr e = false)
      (emitted (handler lib host prompt' stdin)).
Proof.
  intros Htoken Hcount. rewrite handler_open_cherry_picks by done.
  split; [done|]. split; [done|]. split; [|by repeat constructor].
  simpl. rewrite !not_elem_of_cons. repeat split; try discriminate.
  apply not_elem_of_nil.
Qed.

(** An instance: two open cherry-pick pull requests. *)
Lemma open_cherry_picks_stop_witness :
  handler Sample.lib
    (Sample.host (Some "token") 2 [Sample.v3_4_0 false [Sample.pr1]])
    true ["y"; "y"]
  = mkRun (ProcessExit 1)
      [Graphql getOpenCherryPickPRsQuery;
       ConsoleLog (Text "There are open cherry-pick PRs; get them merged before continuing");
       OpenCherryPickPRs]
      ["y"; "y"].
Proof.
  apply (open_cherry_picks_stop Sample.lib
           (Sample.host (Some "token") 2 [Sample.v3_4_0 false [Sample.pr1]])
           true ["y"; "y"]); reflexivity.
Defined.

(** C3, as the code has it.  If a fetched milestone other than "chore"
    reports [hasNextPage = true], the script exits with code 1 before any
    pull request is classified or reconciled, and without reading an
    answer. *)
Theorem next_page_stops lib host prompt' stdin node :
  node ∈ milestones_nodes host →
  Milestone.title node ≠ "chore" →
  hasNextPage (pageInfo (Milestone.pullRequests node)) = true →
  exit_status (outcome (handler lib host prompt' stdin)) = Some 1
  ∧ Forall (λ e, processes_pr e = false)
      (emitted (handler lib host prompt' stdin))
  ∧ unread (handler lib host prompt' stdin) = stdin.
Proof.
  intros Hnode Htitle Hmore.
  assert (has_next_page (validated host) = true) as Hstop.
  { apply has_next_page_true. exists node. split; [|done].
    by apply elem_of_without_chore. }
  destruct (handler_path lib host prompt' stdin) as
    [| | |(_ & _ & Hclear)|? (_ & _ & Hclear)|? ? (_ & _ & Hclear)
    |? ? ? (_ & _ & Hclear)];
    try congruence; by repeat constructor.
Qed.

(** An instance: the milestone v3.5.0 has a next page. *)
Lemma next_page_stops_witness :
  exit_status
    (outcome
       (handler Sample.lib
          (Sample.host (Some "token") 0
             [Sample.v3_4_0 false [Sample.pr1]; Sample.v3_5_0 true [Sample.pr2]])
          true ["y"; "y"]))
  = Some 1.
Proof.
  refine (proj1 (next_page_stops Sample.lib
                   (Sample.host (Some "token") 0
                      [Sample.v3_4_0 false [Sample.pr1];
                       Sample.v3_5_0 true [Sample.pr2]])
                   true ["y"; "y"] (Sample.v3_5_0 true [Sample.pr2]) _ _ _)).
  - right. left.
  - discriminate.
  - reflexivity.
Defined.

(** What the script does when only the "chore" milestone has a next
    page: the review goes on, [Sample.pr1] is classified and found in its
    milestone, and the handler returns. *)
Example chore_next_page_run :
  handler Sample.lib
    (Sample.host (Some "token") 0
       [Sample.chore true [Sample.pr3]; Sample.v3_5_0 false [Sample.pr1]])
    false ["y"]
  = mkRun (Returned tt)
      (preliminaries
         (Sample.host (Some "token") 0
            [Sample.chore true [Sample.pr3]; Sample.v3_5_0 false [Sample.pr1]])
       ++ preparations
       ++ [ConsoleLog separator; GetReleaseCommits; ConsoleLog Blank;
           ConsoleLog (ShouldBeMilestoned
                         {| Pr.id := "PR_1"; Pr.number := 1; Pr.title := "fix: a";
                            Pr.mergeCommit := {| message := "fix: a (#1)" |};
                            Pr.milestone := "v3.5.0" |}
                         (Some "v3.5.0") true);
           ConsoleLog Done])
      [].
Proof. by vm_compute. Qed.

(** For a milestone of the fetched set that is titled "chore" the
    guard does not fire: a next page on it does not stop the script. *)
Lemma any_next_page_stops_counterexample :
  ¬ ((∃ node,
        node ∈ milestones_nodes
                 (Sample.host (Some "token") 0
                    [Sample.chore true [Sample.pr3];
                     Sample.v3_4_0 false [Sample.pr1]])
        ∧ hasNextPage (pageInfo (Milestone.pullRequests node)) = true) →
     exit_status
       (outcome
          (handler Sample.lib
             (Sample.host (Some "token") 0
                [Sample.chore true [Sample.pr3];
                 Sample.v3_4_0 false [Sample.pr1]])
             false ["y"]))
     = Some 1
     ∧ Forall (λ e, processes_pr e = false)
         (emitted
            (handler Sample.lib
               (Sample.host (Some "token") 0
                  [Sample.chore true [Sample.pr3];
                   Sample.v3_4_0 false [Sample.pr1]])
               false ["y"]))).
Proof.
  intros Hclaim. destruct Hclaim as [Hexit _].
  - exists (Sample.chore true [Sample.pr3]). split; [left|reflexivity].
  - vm_compute in Hexit. discriminate.
Qed.

(** The bound on the unrolling of [while (true)] is never reached: a run
    exits, returns, waits for an answer, or dies on line 94. *)
Lemma handler_outcome lib host prompt' stdin :
  outcome (handler lib host prompt' stdin) = ProcessExit 1
  ∨ outcome (handler lib host prompt' stdin) = Returned tt
  ∨ outcome (handler lib host prompt' stdin) = AwaitingInput
  ∨ outcome (handler lib host prompt' stdin) = Thrown TypeError.
Proof.
  destruct (handler_path lib host prompt' stdin) as [| | | | | |? ? prs];
    simpl; auto.
  destruct (for_of_validate_ends lib (bound host prompt') (getReleaseBranch lib)
              prs rest) as [[Hend|Hend] _]; auto.
Qed.

Lemma handler_never_out_of_fuel lib host prompt' stdin :
  outcome (handler lib host prompt' stdin) ≠ OutOfFuel.
Proof.
  destruct (handler_outcome lib host prompt' stdin) as [H|[H|[H|H]]];
    by rewrite H.
Qed.

Lemma has_next_page_validated host :
  has_next_page (validated host) = true
  ↔ ∃ node, node ∈ milestones_nodes host
            ∧ Milestone.title node ≠ "chore"
            ∧ hasNextPage (pageInfo (Milestone.pullRequests node)) = true.
Proof.
  rewrite has_next_page_true. unfold validated, needs_pagination.
  split; intros (node & Hnode); exists node.
  - destruct Hnode as [[? ?]%elem_of_without_chore ?]. done.
  - destruct Hnode as (? & ? & ?). split; [|done]. by apply elem_of_without_chore.
Qed.

Lemma clear_not_stopped host :
  clear host →
  ¬ (Js.truthy (GITHUB_TOKEN host) = false
     ∨ 0 < openCherryPickPRs_totalCount host
     ∨ ∃ node, node ∈ milestones_nodes host
               ∧ Milestone.title node ≠ "chore"
               ∧ hasNextPage (pageInfo (Milestone.pullRequests node)) = true).
Proof.
  intros (Htoken & Hcount & Hmore). rewrite <- has_next_page_validated.
  intros [?|[?|?]]; congruence.
Qed.

Lemma unmerged_validated host :
  collect_prs (validated host) = None
  ↔ ∃ node, node ∈ milestones_nodes host
            ∧ Milestone.title node ≠ "chore"
            ∧ ∃ raw, raw ∈ nodes (Milestone.pullRequests node)
                     ∧ PullRequest.mergeCommit raw = None.
Proof.
  rewrite collect_prs_None. unfold validated, lists_unmerged.
  split; intros (node & Hnode); exists node.
  - destruct Hnode as [[? ?]%elem_of_without_chore ?]. done.
  - destruct Hnode as (? & ? & ?). split; [|done]. by apply elem_of_without_chore.
Qed.

(** C9, as the code has it.  A run exits with code 1 exactly when the
    credential is unset or empty, the count of open cherry-pick pull
    requests is positive, a fetched milestone other than "chore" has a next
    page, the first answer typed is ["n"], or the review question is
    answered and a fetched milestone other than "chore" lists a pull
    request without merge commit (line 94 then throws, and nothing catches
    the exception).  In every other run the handler returns (exit code 0)
    unless the operator leaves a question unanswered; it does return when
    the script does not prompt for fixes and the review question is
    answered, and also when the answers after the first hold a reply other
    than ["open"] and ["o"] for every collected pull request. *)
Theorem exit_codes lib host prompt' stdin :
  let r := handler lib host prompt' stdin in
  let stopped :=
    Js.truthy (GITHUB_TOKEN host) = false
    ∨ 0 < openCherryPickPRs_totalCount host
    ∨ (∃ node, node ∈ milestones_nodes host
               ∧ Milestone.title node ≠ "chore"
               ∧ hasNextPage (pageInfo (Milestone.pullRequests node)) = true)
    ∨ head stdin = Some "n"
    ∨ (stdin ≠ []
       ∧ ∃ node, node ∈ milestones_nodes host
                 ∧ Milestone.title node ≠ "chore"
                 ∧ ∃ raw, raw ∈ nodes (Milestone.pullRequests node)
                          ∧ PullRequest.mergeCommit raw = None) in
  (exit_status (outcome r) = Some 1 ↔ stopped)
  ∧ (¬ stopped → exit_status (outcome r) = Some 0 ∨ outcome r = AwaitingInput)
  ∧ (¬ stopped → stdin ≠ [] →
     prompt' = false
     ∨ (length (collected host) ≤ decisions (tail stdin))%nat →
     exit_status (outcome r) = Some 0).
Proof.
  intros r stopped. subst r stopped.
  pose proof (has_next_page_validated host) as Hpages.
  pose proof (unmerged_validated host) as Hunmerged.
  destruct (handler_path lib host prompt' stdin) as
    [stdin Htoken|stdin Htoken Hcount|stdin Htoken Hcount Hmore
    |Hclear|rest Hclear|answer rest Hclear Hanswer Hnone
    |answer rest prs Hclear Hanswer Hprs]; simpl.
  - split; [tauto|]. split; intros Hnot; exfalso; tauto.
  - split; [tauto|]. split; intros Hnot; exfalso; tauto.
  - apply Hpages in Hmore.
    split; [tauto|]. split; intros Hnot; exfalso; tauto.
  - apply clear_not_stopped in Hclear.
    split; [|split]; [|by auto|done].
    split; [done|]. intros [?|[?|[?|[?|[? _]]]]]; [tauto..|done|done].
  - assert (Some "n" = Some "n") as Hn by done.
    split; [tauto|]. split; intros Hnot; exfalso; tauto.
  - apply Hunmerged in Hnone.
    assert (answer :: rest ≠ []) as Hasked by done.
    split; [tauto|]. split; intros Hnot; exfalso; tauto.
  - apply clear_not_stopped in Hclear.
    assert (¬ ∃ node, node ∈ milestones_nodes host
                      ∧ Milestone.title node ≠ "chore"
                      ∧ ∃ raw, raw ∈ nodes (Milestone.pullRequests node)
                               ∧ PullRequest.mergeCommit raw = None) as Hmerged.
    { rewrite <- Hunmerged. by rewrite Hprs. }
    destruct (for_of_validate_ends lib (bound host prompt') (getReleaseBranch lib)
                prs rest) as [Hends Henough].
    unfold collected. rewrite Hprs. cbn [default].
    split; [|split].
    + split.
      * intros Hexit. destruct Hends as [H|H]; by rewrite H in Hexit.
      * intros [?|[?|[?|[?|[_ ?]]]]]; [tauto..|congruence|tauto].
    + intros _. destruct Hends as [H|H]; rewrite H; by auto.
    + intros _ _ Hanswers. by rewrite (Henough Hanswers).
Qed.

(** With pagination counted for every fetched milestone the
    characterisation of exit code 1 fails: here the "chore" milestone
    would require pagination, every pull request is merged and in its
    milestone, and the run ends with exit code 0 without a mutation. *)
Lemma exit_codes_counterexample :
  ¬ (exit_status
       (outcome
          (handler Sample.lib
             (Sample.host (Some "token") 0
                [Sample.chore true [Sample.pr3];
                 Sample.v3_5_0 false [Sample.pr1]])
             false ["y"]))
     = Some 1
     ↔ Js.truthy (Some "token") = false
       ∨ 0 < 0
       ∨ (∃ node,
            node ∈ [Sample.chore true [Sample.pr3];
                    Sample.v3_5_0 false [Sample.pr1]]
            ∧ hasNextPage (pageInfo (Milestone.pullRequests node)) = true)
       ∨ head ["y"] = Some "n").
Proof.
  intros [_ Hexit].
  assert (exit_status
            (outcome
               (handler Sample.lib
                  (Sample.host (Some "token") 0
                     [Sample.chore true [Sample.pr3];
                      Sample.v3_5_0 false [Sample.pr1]])
                  false ["y"]))
          = Some 1) as Hone.
  { apply Hexit. right. right. left.
    exists (Sample.chore true [Sample.pr3]). split; [left|reflexivity]. }
  rewrite chore_next_page_run in Hone. discriminate.
Qed.

(** *** The pull requests that are validated *)






(** The three tiers in one run. *)
Example three_tiers_run :
  handler Sample.lib
    (Sample.host (Some "token") 0
       [Sample.v3_5_0 false [Sample.pr1; Sample.pr2; Sample.pr3]])
    true ["y"; "n"; "n"]
  = mkRun (Returned tt)
      (preliminaries
         (Sample.host (Some "token") 0
            [Sample.v3_5_0 false [Sample.pr1; Sample.pr2; Sample.pr3]])
       ++ preparations
       ++ [ConsoleLog separator; GetReleaseCommits; ConsoleLog Blank;
           ConsoleLog (ShouldBeMilestoned Sample.pr1_in_v3_5_0 (Some "v3.5.0") true);
           ConsoleLog Done;
           ConsoleLog separator; GetReleaseCommits;
           IsCommitInRef "next" "feat: b (#2)"; ConsoleLog Blank;
           ConsoleLog (ShouldBeMilestoned Sample.pr2_in_v3_5_0
                         (Some "next-release") false);
           ok_to_fix; ConsoleLog Done;
           ConsoleLog separator; GetReleaseCommits;
           IsCommitInRef "next" "chore: c (#3)"; ConsoleLog Blank;
           ConsoleLog (ShouldBeMilestoned Sample.pr3_in_v3_5_0
                         (Some "v4.0.0") false);
           ok_to_fix; ConsoleLog Done])
      [].
Proof. by vm_compute. Qed.

(** *** What the run depends on *)

(** The guards and the review question depend on the fetched milestones
    only through the next-page test and the titles. *)
Lemma path_ext lib h1 h2 prompt' stdin r :
  GITHUB_TOKEN h1 = GITHUB_TOKEN h2 →
  openCherryPickPRs_totalCount h1 = openCherryPickPRs_totalCount h2 →
  has_next_page (validated h1) = has_next_page (validated h2) →
  Milestone.title <$> validated h1 = Milestone.title <$> validated h2 →
  path lib h1 prompt' stdin r →
  clear h1 ∧ (∃ answer rest, stdin = answer :: rest ∧ answer ≠ "n")
  ∨ handler lib h2 prompt' stdin = r.
Proof.
  intros Htoken Hcount Hmore Htitles Hpath.
  assert (preliminaries h1 = preliminaries h2) as Hpre.
  { unfold preliminaries, review. by rewrite Htitles. }
  assert (clear h1 → clear h2) as Hclear.
  { unfold clear. by rewrite <- Htoken, <- Hcount, <- Hmore. }
  destruct Hpath.
  - right. rewrite handler_no_credential; congruence.
  - right. rewrite handler_open_cherry_picks; congruence.
  - right. rewrite handler_needs_pagination; congruence.
  - right. by rewrite handler_unanswered, Hpre by auto.
  - right. by rewrite handler_declined, Hpre by auto.
  - left. split; [done|]. by eexists _, _.
  - left. split; [done|]. by eexists _, _.
Qed.

(** A run depends on the fetched milestones only through the next-page
    test, the titles, the collected pull requests and the dictionary. *)
Lemma handler_ext lib h1 h2 prompt' stdin :
  GITHUB_TOKEN h1 = GITHUB_TOKEN h2 →
  openCherryPickPRs_totalCount h1 = openCherryPickPRs_totalCount h2 →
  has_next_page (validated h1) = has_next_page (validated h2) →
  Milestone.title <$> validated h1 = Milestone.title <$> validated h2 →
  collect_prs (validated h1) = collect_prs (validated h2) →
  titles_to_ids (validated h1) = titles_to_ids (validated h2) →
  handler lib h1 prompt' stdin = handler lib h2 prompt' stdin.
Proof.
  intros Htoken Hcount Hmore Htitles Hprs Hids.
  assert (preliminaries h1 = preliminaries h2) as Hpre.
  { unfold preliminaries, review. by rewrite Htitles. }
  assert (bound h1 prompt' = bound h2 prompt') as Hbound.
  { unfold bound. by rewrite Hids. }
  assert (clear h1 → clear h2) as Hclear.
  { unfold clear. by rewrite <- Htoken, <- Hcount, <- Hmore. }
  destruct (path_ext lib h1 h2 prompt' stdin _ Htoken Hcount Hmore Htitles
              (handler_path lib h1 prompt' stdin))
    as [(Hclear1 & answer & rest & -> & Hanswer)|Hsame]; [|done].
  destruct (collect_prs (validated h1)) as [prs|] eqn:Hprs1.
  - rewrite (handler_reviewed lib h1 _ _ _ prs) by done.
    rewrite (handler_reviewed lib h2 _ _ _ prs) by auto.
    by rewrite Hpre, Hbound.
  - rewrite !handler_thrown by auto. by rewrite Hpre.
Qed.

Lemma without_chore_idemp (milestones : list Milestone.t) :
  without_chore (without_chore milestones) = without_chore milestones.
Proof.
  unfold without_chore. induction milestones as [|node milestones IH]; [done|].
  rewrite filter_cons. case_decide; [|done].
  rewrite filter_cons. case_decide; [|done]. by rewrite IH.
Qed.

Lemma names_validates lib this branch prs pr e :
  pr ∈ prs → validates lib this branch pr e → names prs e.
Proof.
  intros Hpr [| | |e' []]; simpl; try done; by exists pr.
Qed.

Lemma names_preliminary prs e : preliminary e → names prs e.
Proof. destruct e as [[]|[]| | | | | | | |]; simpl; done. Qed.

Lemma handler_names lib host prompt' :
  always (names (collected host)) (handler lib host prompt').
Proof.
  eapply always_mono; [|apply handler_events].
  intros e [Hpre|(pr & Hpr & Hval)].
  - by apply names_preliminary.
  - by eapply names_validates.
Qed.

(** C6.  A milestone titled "chore" is never in the validation set: the
    run is the one the script makes when the "chore" milestones are taken
    out of the answer of the hosting API, every message about a pull
    request, every mutation and every opening names a collected pull
    request, and every collected pull request is listed under a fetched
    milestone whose title is not "chore". *)
Theorem chore_never_validated lib host prompt' stdin :
  handler lib host prompt' stdin
  = handler lib (answering host (without_chore (milestones_nodes host)))
      prompt' stdin
  ∧ Forall (names (collected host))
      (emitted (handler lib host prompt' stdin))
  ∧ ∀ pr, pr ∈ collected host →
          Pr.milestone pr ≠ "chore"
          ∧ ∃ node raw, node ∈ milestones_nodes host
                        ∧ Milestone.title node ≠ "chore"
                        ∧ raw ∈ nodes (Milestone.pullRequests node)
                        ∧ milestoned node raw = Some pr.
Proof.
  split; [|split].
  - apply handler_ext; try done; unfold validated; simpl;
      by rewrite without_chore_idemp.
  - apply handler_names.
  - intros pr (prs & Hprs & Hpr)%elem_of_collected.
    apply (elem_of_collect_prs _ _ _ Hprs) in Hpr
      as (_ & node & raw & Hnode & Hraw & Hpr).
    apply elem_of_without_chore in Hnode as [Hnode Htitle].
    split; [|by exists node, raw].
    unfold milestoned in Hpr. destruct (PullRequest.mergeCommit raw); [|done].
    by injection Hpr as <-.
Qed.

Lemma without_chore_without_ignored (milestones : list Milestone.t) :
  without_chore (without_ignored <$> milestones)
  = without_ignored <$> without_chore milestones.
Proof.
  unfold without_chore. induction milestones as [|node milestones IH]; [done|].
  rewrite fmap_cons, !filter_cons. simpl.
  case_decide; by rewrite IH.
Qed.

Lemma has_next_page_without_ignored (milestones : list Milestone.t) :
  has_next_page (without_ignored <$> milestones) = has_next_page milestones.
Proof.
  unfold has_next_page. f_equal.
  induction milestones as [|node milestones IH]; [done|].
  rewrite fmap_cons. cbn [forallb]. by rewrite IH.
Qed.

Lemma titles_without_ignored (milestones : list Milestone.t) :
  Milestone.title <$> (without_ignored <$> milestones)
  = Milestone.title <$> milestones.
Proof. rewrite <- list_fmap_compose. by apply list_fmap_ext. Qed.

Lemma titles_to_ids_without_ignored (milestones : list Milestone.t) :
  titles_to_ids (without_ignored <$> milestones) = titles_to_ids milestones.
Proof.
  unfold titles_to_ids. generalize Js.empty_object.
  induction milestones as [|node milestones IH]; intros obj; [done|].
  rewrite fmap_cons. cbn [fold_left]. by rewrite IH.
Qed.

(** The pull requests of the ignore list drop out of one list, whether
    they are taken out before line 94 or after it. *)
Lemma mapM_milestoned_without_ignored node raws kept :
  mapM (milestoned node) raws = Some kept →
  ∃ kept',
    mapM (milestoned (without_ignored node))
      (filter (λ pr, PullRequest.id pr ∉ IGNORE_LIST) raws) = Some kept'
    ∧ filter (λ pr, Js.includes IGNORE_LIST (Pr.id pr) = false) kept'
      = filter (λ pr, Js.includes IGNORE_LIST (Pr.id pr) = false) kept.
Proof.
  revert kept. induction raws as [|raw raws IH]; intros kept.
  { intros [= <-]. by exists []. }
  rewrite mapM_Some. intros Hall.
  inversion Hall as [|? pr ? kept0 Hraw Hraws]; subst.
  apply mapM_Some in Hraws. destruct (IH _ Hraws) as (kept' & Hkept' & Hsame).
  assert (Pr.id pr = PullRequest.id raw) as Hid.
  { unfold milestoned in Hraw. destruct (PullRequest.mergeCommit raw); [|done].
    by injection Hraw as <-. }
  assert (milestoned (without_ignored node) raw = Some pr) as Hraw'
    by exact Hraw.
  rewrite !filter_cons.
  destruct (decide (PullRequest.id raw ∉ IGNORE_LIST)) as [Hkeep|Hdrop].
  - exists (pr :: kept'). split.
    + apply mapM_Some. constructor; [done|]. by apply mapM_Some.
    + rewrite !filter_cons, Hsame. done.
  - exists kept'. split; [done|]. rewrite Hsame.
    rewrite decide_False; [done|]. rewrite Hid.
    by rewrite <- JsFacts.includes_not_elem_of in Hdrop.
Qed.

Lemma collect_prs_without_ignored (milestones : list Milestone.t) prs :
  collect_prs milestones = Some prs →
  collect_prs (without_ignored <$> milestones) = Some prs.
Proof.
  unfold collect_prs. intros (lists & Hlists & ->)%fmap_Some.
  revert lists Hlists. induction milestones as [|node milestones IH];
    intros lists.
  { by intros [= <-]. }
  rewrite mapM_Some. intros Hall.
  inversion Hall as [|? kept ? lists0 Hnode Hrest]; subst.
  apply mapM_Some in Hrest. specialize (IH _ Hrest).
  apply fmap_Some in IH as (lists' & Hlists' & Hsame).
  destruct (mapM_milestoned_without_ignored _ _ _ Hnode)
    as (kept' & Hkept' & Hkept).
  apply fmap_Some. exists (kept' :: lists'). split.
  - rewrite fmap_cons. apply mapM_Some. constructor.
    + exact Hkept'.
    + by apply mapM_Some.
  - cbn [concat]. by rewrite !filter_app, Hkept, Hsame.
Qed.

(** If line 94 throws with the pull requests of the ignore list and not
    without them, one of them has no merge commit. *)
Lemma collect_prs_ignored_unmerged (milestones : list Milestone.t) :
  collect_prs milestones = None →
  collect_prs (without_ignored <$> milestones) = None
  ∨ ∃ node raw, node ∈ milestones
                ∧ raw ∈ nodes (Milestone.pullRequests node)
                ∧ PullRequest.id raw ∈ IGNORE_LIST
                ∧ PullRequest.mergeCommit raw = None.
Proof.
  intros (node & Hnode & raw & Hraw & Hnone)%collect_prs_None.
  destruct (decide (PullRequest.id raw ∈ IGNORE_LIST)) as [Hin|Hout].
  - right. by exists node, raw.
  - left. apply collect_prs_None. exists (without_ignored node). split.
    + apply list_elem_of_fmap. by exists node.
    + exists raw. split; [|done]. cbn [without_ignored Milestone.pullRequests nodes].
      by apply list_elem_of_filter.
Qed.

(** C7.  A pull request whose id is in the ignore list is never
    presented and never mutated, whatever its milestone: the run is the
    one the script makes when these pull requests are taken out of the
    answer of the hosting API (unless one of them has no merge commit and
    the run dies on line 94 before any pull request is presented), and
    no message names such a pull request and no mutation carries such an
    id. *)
Theorem ignored_never_reconciled lib host prompt' stdin :
  (handler lib host prompt' stdin
   = handler lib (answering host (without_ignored <$> milestones_nodes host))
       prompt' stdin
   ∨ outcome (handler lib host prompt' stdin) = Thrown TypeError
     ∧ ∃ node raw, node ∈ milestones_nodes host
                   ∧ Milestone.title node ≠ "chore"
                   ∧ raw ∈ nodes (Milestone.pullRequests node)
                   ∧ PullRequest.id raw ∈ IGNORE_LIST
                   ∧ PullRequest.mergeCommit raw = None)
  ∧ ∀ e, e ∈ emitted (handler lib host prompt' stdin) →
         (∀ pr milestone, expects e = Some (pr, milestone) →
                          Pr.id pr ∉ IGNORE_LIST)
         ∧ (∀ pullRequestId milestoneId,
              e = Graphql (milestonePullRequest pullRequestId milestoneId) →
              pullRequestId ∉ IGNORE_LIST).
Proof.
  split.
  - assert (validated (answering host (without_ignored <$> milestones_nodes host))
            = without_ignored <$> validated host) as Hvalidated.
    { unfold validated. simpl. apply without_chore_without_ignored. }
    assert (collect_prs (validated host)
            = collect_prs
                (validated
                   (answering host (without_ignored <$> milestones_nodes host))) →
            handler lib host prompt' stdin
            = handler lib
                (answering host (without_ignored <$> milestones_nodes host))
                prompt' stdin) as Hsame.
    { intros Hprs. apply handler_ext; try done; rewrite Hvalidated.
      - symmetry. apply has_next_page_without_ignored.
      - symmetry. apply titles_without_ignored.
      - symmetry. apply titles_to_ids_without_ignored. }
    rewrite Hvalidated in Hsame.
    destruct (collect_prs (validated host)) as [prs|] eqn:Hprs.
    { left. apply Hsame. symmetry. by apply collect_prs_without_ignored. }
    destruct (collect_prs_ignored_unmerged _ Hprs)
      as [Hnone|(node & raw & Hnode & Hraw & Hid & Hnull)].
    { left. by apply Hsame. }
    assert (handler lib host prompt' stdin
            = handler lib
                (answering host (without_ignored <$> milestones_nodes host))
                prompt' stdin
            ∨ clear host ∧ ∃ answer rest, stdin = answer :: rest ∧ answer ≠ "n")
      as [Hequal|(Hclear & answer & rest & -> & Hanswer)]; [|by left|].
    { assert (has_next_page (validated host)
              = has_next_page
                  (validated
                     (answering host (without_ignored <$> milestones_nodes host))))
        as Hmore.
      { rewrite Hvalidated. symmetry. apply has_next_page_without_ignored. }
      assert (Milestone.title <$> validated host
              = Milestone.title <$>
                  validated
                    (answering host (without_ignored <$> milestones_nodes host)))
        as Htitles.
      { rewrite Hvalidated. symmetry. apply titles_without_ignored. }
      pose proof (path_ext lib host
                    (answering host (without_ignored <$> milestones_nodes host))
                    prompt' stdin (handler lib host prompt' stdin)
                    eq_refl eq_refl Hmore Htitles
                    (handler_path lib host prompt' stdin)) as Hpath.
      destruct Hpath as [?|Hpath]; [by right|]. left. symmetry. exact Hpath. }
    right. rewrite handler_thrown by done. split; [done|].
    apply elem_of_without_chore in Hnode as [Hnode Htitle].
    exists node, raw. repeat split; assumption.
  - intros e He.
    pose proof (handler_names lib host prompt' stdin) as Hall.
    rewrite Forall_forall in Hall. specialize (Hall e He).
    assert (∀ pr, pr ∈ collected host → Pr.id pr ∉ IGNORE_LIST) as Hcollected.
    { intros pr (prs & Hprs & Hpr)%elem_of_collected.
      by apply (elem_of_collect_prs _ _ _ Hprs) in Hpr as [? _]. }
    split.
    + intros pr milestone Hexpects.
      destruct e as [[]| | | | | | | | |]; try done;
        injection Hexpects as <- <-; simpl in Hall; by apply Hcollected.
    + intros pullRequestId milestoneId ->. simpl in Hall.
      destruct Hall as (pr & Hpr & <-). by apply Hcollected.
Qed.

End ValidateMilestonesFacts.

(** ** Further properties of the JavaScript fragments *)

Module JsSplit.
Import Js Runs.

Lemma split_head sep s :
  ∃ piece pieces, split sep s = piece :: pieces.
Proof.
  destruct (split sep s) as [|piece pieces] eqn:Hsplit.
  - by apply JsFacts.split_nonempty in Hsplit.
  - by exists piece, pieces.
Qed.

(** Splitting a string without the separator leaves it whole. *)
Lemma split_whole sep s : contains sep s = false → split sep s = [s].
Proof.
  induction s as [|c rest IH]; [done|]. cbn [contains split].
  destruct (Ascii.eqb c sep); [done|]. intros Hrest. by rewrite IH.
Qed.

(** A separator after a piece that has none starts the next piece. *)
Lemma split_piece sep piece rest :
  contains sep piece = false →
  split sep (piece +:+ String sep rest) = piece :: split sep rest.
Proof.
  induction piece as [|c piece IH]; simpl.
  - by rewrite Ascii.eqb_refl.
  - destruct (Ascii.eqb c sep); [done|]. intros Hpiece. by rewrite IH.
Qed.

(** A string either has no separator, or is a first piece without one,
    the separator and a remainder. *)
Lemma split_first sep s :
  (contains sep s = false ∧ split sep s = [s])
  ∨ ∃ piece rest, contains sep piece = false
                  ∧ s = piece +:+ String sep rest
                  ∧ split sep s = piece :: split sep rest.
Proof.
  induction s as [|c s IH]; [by left|]. cbn [contains split].
  destruct (Ascii.eqb c sep) eqn:Hc.
  - apply Ascii.eqb_eq in Hc as ->. right. by exists EmptyString, s.
  - destruct IH as [[Hnone ->]|(piece & rest & Hpiece & -> & ->)].
    + left. by rewrite Hnone.
    + right. exists (String c piece), rest. simpl. by rewrite Hc.
Qed.

(** X12.  Joining the pieces of [s.split(sep)] with the separator gives
    [s] back, and no piece contains the separator. *)
Theorem split_join sep s :
  join (String sep EmptyString) (split sep s) = s
  ∧ Forall (λ piece, contains sep piece = false) (split sep s).
Proof.
  unfold join. induction s as [|c s [IHjoin IHpieces]]; cbn [split].
  { split; [done|by repeat constructor]. }
  destruct (Ascii.eqb c sep) eqn:Hc.
  - apply Ascii.eqb_eq in Hc as ->. split; [|by constructor].
    destruct (split_head sep s) as (piece & pieces & Hsplit).
    rewrite Hsplit in *. cbn [String.concat]. simpl. by rewrite <- IHjoin.
  - destruct (split_head sep s) as (piece & pieces & Hsplit).
    rewrite Hsplit in *. split.
    + rewrite <- IHjoin. by destruct pieces.
    + inversion_clear IHpieces as [|? ? Hpiece Hpieces].
      constructor; [|done]. simpl. by rewrite Hc.
Qed.

(** X11.  In a branch name of at least three components the version
    segment [branch.split('/')[2]] is the third one: what follows the
    second slash, up to the next slash if there is one. *)
Theorem version_segment_third x y z :
  contains "/" x = false →
  contains "/" y = false →
  split "/" (x +:+ "/" +:+ y +:+ "/" +:+ z) !! 2%nat = shift (split "/" z)
  ∧ (contains "/" z = false →
     split "/" (x +:+ "/" +:+ y +:+ "/" +:+ z) !! 2%nat = Some z).
Proof.
  intros Hx Hy.
  change (x +:+ "/" +:+ y +:+ "/" +:+ z)
    with (x +:+ String "/" (y +:+ String "/" z)).
  rewrite !split_piece by done. cbn [lookup list_lookup]. split.
  - unfold shift. by destruct (split "/" z).
  - intros Hz. by rewrite split_whole.
Qed.

Lemma version_segment_third_witness :
  split "/" "release/minor/v3.5.0" !! 2%nat = Some "v3.5.0".
Proof.
  apply (version_segment_third "release" "minor" "v3.5.0"); reflexivity.
Defined.

(** A branch name with fewer than two slashes has no version segment. *)
Lemma version_segment_missing x y :
  contains "/" x = false →
  contains "/" y = false →
  split "/" x !! 2%nat = None ∧ split "/" (x +:+ "/" +:+ y) !! 2%nat = None.
Proof.
  intros Hx Hy. change (x +:+ "/" +:+ y) with (x +:+ String "/" y).
  by rewrite split_piece, !split_whole.
Qed.

End JsSplit.

(** ** Further properties of the [validate-milestones] command *)

Module ValidateMilestonesRuns.
Import ValidateMilestones Observations Runs ValidateMilestonesFacts.
#[local] Open Scope script_scope.
#[local] Arguments bind : simpl never.

(** *** The first line of a merge-commit message *)

(** X10.  The message kept at line 94 has no line break, is the message
    itself or what precedes its first line break, and is not changed by
    being cut again. *)
Theorem first_line_cut message' :
  contains "010" (first_line message') = false
  ∧ (message' = first_line message'
     ∨ ∃ rest, message' = first_line message' +:+ String "010" rest)
  ∧ first_line (first_line message') = first_line message'.
Proof.
  assert (∀ s, contains "010" s = false → first_line s = s) as Hwhole.
  { intros s Hs. unfold first_line. by rewrite JsSplit.split_whole. }
  destruct (JsSplit.split_first "010" message')
    as [[Hnone _]|(piece & rest & Hpiece & -> & _)].
  - rewrite !(Hwhole message') by done. split; [done|]. split; [by left|done].
  - assert (first_line (piece +:+ String "010" rest) = piece) as ->.
    { unfold first_line. by rewrite JsSplit.split_piece. }
    split; [done|]. split; [right; by exists rest|by apply Hwhole].
Qed.

Example first_line_without_break : first_line "fix: a (#1)" = "fix: a (#1)".
Proof. reflexivity. Qed.

Example first_line_of_empty : first_line "" = "".
Proof. reflexivity. Qed.

(** *** The guards *)

Lemma truthy_false token :
  Js.truthy token = false ↔ token = None ∨ token = Some "".
Proof.
  destruct token as [[|c s]|]; simpl; split; try done; try by auto.
  intros [?|?]; congruence.
Qed.

(** X1.  With the credential unset, or set to the empty string, the
    script prints its message and exits with code 1 without sending any
    request and without reading an answer. *)
Theorem missing_credential_stops lib host prompt' stdin :
  GITHUB_TOKEN host = None ∨ GITHUB_TOKEN host = Some "" →
  handler lib host prompt' stdin
  = mkRun (ProcessExit 1)
      [ConsoleLog (Text "You have to set the GITHUB_TOKEN env var")] stdin.
Proof. intros Htoken%truthy_false. by apply handler_no_credential. Qed.

Lemma missing_credential_stops_witness :
  handler Sample.lib (Sample.host (Some "") 0 [Sample.v3_4_0 false [Sample.pr1]])
    true ["y"]
  = mkRun (ProcessExit 1)
      [ConsoleLog (Text "You have to set the GITHUB_TOKEN env var")] ["y"].
Proof.
  apply (missing_credential_stops Sample.lib
           (Sample.host (Some "") 0 [Sample.v3_4_0 false [Sample.pr1]])
           true ["y"]).
  right. reflexivity.
Defined.

(** X2.  Past the three guards, only the reply ["n"] declines the
    review: the script then exits with code 1 having printed a blank line
    and nothing else: no remote is updated, nothing is opened, no pull
    request is processed.  Any other reply (["N"], ["no"], the empty
    reply) starts the review and the remotes are updated.  If a fetched
    milestone other than "chore" then lists a pull request without merge
    commit, line 94 throws and the run ends there; otherwise the release
    branch is asked for and the exit code is not 1. *)
Theorem review_reply lib host prompt' answer rest :
  clear host →
  let unmerged :=
    ∃ node, node ∈ milestones_nodes host
            ∧ Milestone.title node ≠ "chore"
            ∧ ∃ raw, raw ∈ nodes (Milestone.pullRequests node)
                     ∧ PullRequest.mergeCommit raw = None in
  (answer = "n" →
   handler lib host prompt' (answer :: rest)
   = mkRun (ProcessExit 1) (preliminaries host ++ [ConsoleLog Blank]) rest)
  ∧ (answer ≠ "n" → unmerged →
     handler lib host prompt' (answer :: rest)
     = mkRun (Thrown TypeError)
         (preliminaries host ++ [ConsoleLog Blank; UpdateRemotes]) rest)
  ∧ (answer ≠ "n" → ¬ unmerged →
     (preliminaries host ++ preparations)
       `prefix_of` emitted (handler lib host prompt' (answer :: rest))
     ∧ exit_status (outcome (handler lib host prompt' (answer :: rest)))
       ≠ Some 1).
Proof.
  intros Hclear unmerged. subst unmerged. split; [|split].
  - intros ->. by apply handler_declined.
  - intros Hanswer Hunmerged%unmerged_validated. by apply handler_thrown.
  - intros Hanswer Hmerged. rewrite <- unmerged_validated in Hmerged.
    destruct (collect_prs (validated host)) as [prs|] eqn:Hprs; [|done].
    rewrite (handler_reviewed _ _ _ _ _ prs) by done.
    unfold prepend. cbn [emitted outcome]. split.
    + by eexists.
    + destruct (for_of_validate_ends lib (bound host prompt') (getReleaseBranch lib)
                  prs rest) as [[H|H] _];
        by rewrite H.
Qed.

Lemma review_reply_witness :
  exit_status
    (outcome
       (handler Sample.lib
          (Sample.host (Some "token") 0 [Sample.v3_4_0 false [Sample.pr1]])
          true ["N"; "n"]))
  ≠ Some 1
  ∧ handler Sample.lib
      (Sample.host (Some "token") 0
         [Sample.v3_4_0 false [Sample.pr1; Sample.pr4]])
      true ["N"; "n"]
    = mkRun (Thrown TypeError)
        (preliminaries
           (Sample.host (Some "token") 0
              [Sample.v3_4_0 false [Sample.pr1; Sample.pr4]])
         ++ [ConsoleLog Blank; UpdateRemotes])
        ["n"].
Proof.
  split.
  - refine (proj2 (proj2 (proj2 (review_reply Sample.lib
                                   (Sample.host (Some "token") 0
                                      [Sample.v3_4_0 false [Sample.pr1]])
                                   true "N" ["n"] _)) _ _)).
    + split; [reflexivity|]. split; [|reflexivity]. simpl. lia.
    + discriminate.
    + intros (node & Hnode & _ & raw & Hraw & Hnone).
      apply list_elem_of_singleton in Hnode as ->.
      apply list_elem_of_singleton in Hraw as ->. discriminate Hnone.
  - refine (proj1 (proj2 (review_reply Sample.lib
                            (Sample.host (Some "token") 0
                               [Sample.v3_4_0 false [Sample.pr1; Sample.pr4]])
                            true "N" ["n"] _)) _ _).
    + split; [reflexivity|]. split; [|reflexivity]. simpl. lia.
    + discriminate.
    + exists (Sample.v3_4_0 false [Sample.pr1; Sample.pr4]).
      split; [left|]. split; [discriminate|].
      exists Sample.pr4. split; [right; left|reflexivity].
Defined.

(** *** Reading a trace *)

Lemma mutated_app es1 es2 : mutated (es1 ++ es2) = mutated es1 ++ mutated es2.
Proof. apply omap_app. Qed.

Lemma presented_app es1 es2 :
  presented (es1 ++ es2) = presented es1 ++ presented es2.
Proof. apply omap_app. Qed.

Lemma mutated_before_loop host :
  mutated (preliminaries host ++ preparations) = [].
Proof. reflexivity. Qed.

Lemma presented_before_loop host :
  presented (preliminaries host ++ preparations) = [].
Proof. reflexivity. Qed.

Lemma mutated_classification lib pr : mutated (classification lib pr) = [].
Proof. unfold classification. by destruct (decide (_ ∈ _)). Qed.

Lemma presented_classification lib pr : presented (classification lib pr) = [].
Proof. unfold classification. by destruct (decide (_ ∈ _)). Qed.

Lemma mutated_flat_map {A} (f : A → list Event) (xs : list A) :
  (∀ x, x ∈ xs → mutated (f x) = []) → mutated (flat_map f xs) = [].
Proof.
  induction xs as [|x xs IH]; intros Hxs; [done|].
  cbn [flat_map]. rewrite mutated_app, Hxs, IH; [done| |left].
  intros y Hy. apply Hxs. by right.
Qed.

(** *** Runs that do not ask *)

Lemma for_of_returned {A} (body : A → M unit) x xs stdin events stdin' :
  body x stdin = mkRun (Returned tt) events stdin' →
  for_of (x :: xs) body stdin = prepend events (for_of xs body stdin').
Proof. intros Hbody. cbn [for_of]. unfold bind. by rewrite Hbody. Qed.

Lemma validate_quiet lib this branch pr stdin :
  prompt this = false →
  validate lib this branch pr stdin
  = mkRun (Returned tt) (quiet lib this branch pr) stdin.
Proof.
  intros Hprompt. rewrite validate_expected. unfold quiet.
  destruct (decide (Some (Pr.milestone pr) = _)) as [Heq|Hne].
  - by rewrite makeValidateMilestone_correct.
  - by rewrite makeValidateMilestone_no_prompt.
Qed.

Lemma validate_untouched lib this branch pr stdin :
  ¬ mismatched lib branch pr →
  validate lib this branch pr stdin
  = mkRun (Returned tt) (untouched lib branch pr) stdin.
Proof.
  intros Heq%dec_stable. rewrite validate_expected.
  by rewrite makeValidateMilestone_correct.
Qed.

Lemma for_of_quiet lib this branch prs stdin :
  prompt this = false →
  for_of prs (validate lib this branch) stdin
  = mkRun (Returned tt) (flat_map (quiet lib this branch) prs) stdin.
Proof.
  intros Hprompt. induction prs as [|pr prs IH]; [done|].
  rewrite (for_of_returned _ _ _ _ _ _ (validate_quiet _ _ _ _ _ Hprompt)).
  by rewrite IH.
Qed.

Lemma for_of_untouched lib this branch prs stdin :
  (∀ pr, pr ∈ prs → ¬ mismatched lib branch pr) →
  for_of prs (validate lib this branch) stdin
  = mkRun (Returned tt) (flat_map (untouched lib branch) prs) stdin.
Proof.
  induction prs as [|pr prs IH]; intros Hprs; [done|].
  rewrite (for_of_returned _ _ _ _ _ _
             (validate_untouched _ this _ _ _ (Hprs pr ltac:(left)))).
  rewrite IH; [done|]. intros pr' Hpr'. apply Hprs. by right.
Qed.

(** X3.  With the prompt flag off, a review that is not declined, of
    pull requests that all have a merge commit, runs to the end without
    asking anything further: its events are those before the loop
    followed, pull request by pull request in the order they were
    collected, by the classification, the report and, on a mismatch,
    whatever [isYes('y')] decides; no answer after the first is read. *)
Theorem quiet_review lib host answer rest prs :
  clear host → answer ≠ "n" →
  collect_prs (validated host) = Some prs →
  handler lib host false (answer :: rest)
  = mkRun (Returned tt)
      (preliminaries host ++ preparations
       ++ flat_map (quiet lib (bound host false) (getReleaseBranch lib)) prs)
      rest.
Proof.
  intros Hclear Hanswer Hprs. rewrite (handler_reviewed _ _ _ _ _ prs) by done.
  rewrite for_of_quiet by done. unfold prepend. cbn [outcome emitted unread].
  by rewrite (assoc_L (++)).
Qed.

Lemma quiet_review_witness :
  handler Sample.lib
    (Sample.host (Some "token") 0
       [Sample.v3_4_0 false [Sample.pr1]; Sample.v3_5_0 false []])
    false ["y"; "o"]
  = mkRun (Returned tt)
      (preliminaries
         (Sample.host (Some "token") 0
            [Sample.v3_4_0 false [Sample.pr1]; Sample.v3_5_0 false []])
       ++ preparations
       ++ [ConsoleLog separator; GetReleaseCommits; ConsoleLog Blank;
           ConsoleLog (ShouldBeMilestoned Sample.pr1_in_v3_4_0 (Some "v3.5.0") false);
           ConsoleLog (Fixing Sample.pr1_in_v3_4_0 (Some "v3.5.0"));
           Graphql (milestonePullRequest "PR_1" (Some (Js.Str "MI_350")));
           ConsoleLog Done])
      ["o"].
Proof.
  apply (quiet_review Sample.lib
           (Sample.host (Some "token") 0
              [Sample.v3_4_0 false [Sample.pr1]; Sample.v3_5_0 false []])
           "y" ["o"] [Sample.pr1_in_v3_4_0]).
  - split; [reflexivity|]. split; [|reflexivity]. simpl. lia.
  - discriminate.
  - reflexivity.
Defined.

(** X4.  When every collected pull request already has the milestone the
    classification expects, a review that is not declined only reads and
    reports, whatever the prompt flag: it returns after the
    classification and the ok report of each pull request, asks nothing,
    opens nothing, issues no mutation and leaves the later answers
    unread. *)
Theorem consistent_review lib host prompt' answer rest prs :
  clear host → answer ≠ "n" →
  collect_prs (validated host) = Some prs →
  (∀ pr, pr ∈ prs →
         Some (Pr.milestone pr)
         = expected_milestone lib (getReleaseBranch lib)
             (message (Pr.mergeCommit pr))) →
  handler lib host prompt' (answer :: rest)
  = mkRun (Returned tt)
      (preliminaries host ++ preparations
       ++ flat_map (untouched lib (getReleaseBranch lib)) prs)
      rest
  ∧ mutated (emitted (handler lib host prompt' (answer :: rest))) = [].
Proof.
  intros Hclear Hanswer Hcollected Hprs.
  rewrite (handler_reviewed _ _ _ _ _ prs) by done.
  rewrite for_of_untouched by (intros pr Hpr Hne; by apply Hne, Hprs).
  unfold prepend. cbn [outcome emitted unread]. split.
  { by rewrite (assoc_L (++)). }
  rewrite mutated_app, mutated_before_loop.
  apply mutated_flat_map. intros pr _. unfold untouched.
  by rewrite mutated_app, mutated_classification.
Qed.

Lemma consistent_review_witness :
  mutated
    (emitted
       (handler Sample.lib
          (Sample.host (Some "token") 0 [Sample.v3_5_0 false [Sample.pr1]])
          true ["y"; "y"]))
  = []
  ∧ unread
      (handler Sample.lib
         (Sample.host (Some "token") 0 [Sample.v3_5_0 false [Sample.pr1]])
         true ["y"; "y"])
    = ["y"].
Proof.
  assert (clear (Sample.host (Some "token") 0 [Sample.v3_5_0 false [Sample.pr1]]))
    as Hclear.
  { split; [reflexivity|]. split; [|reflexivity]. simpl. lia. }
  assert (∀ pr,
            pr ∈ [Sample.pr1_in_v3_5_0] →
            Some (Pr.milestone pr)
            = expected_milestone Sample.lib (getReleaseBranch Sample.lib)
                (message (Pr.mergeCommit pr))) as Hprs.
  { intros pr Hpr. apply list_elem_of_singleton in Hpr as ->. reflexivity. }
  destruct (consistent_review Sample.lib _ true "y" ["y"] [Sample.pr1_in_v3_5_0]
              Hclear ltac:(discriminate) eq_refl Hprs) as [Hrun Hnone].
  split; [exact Hnone|]. by rewrite Hrun.
Defined.

(** *** Order of presentation and of mutation *)

Lemma presented_asked lib this pr milestone stdin :
  presented (emitted (asked lib this pr milestone stdin)) = [].
Proof.
  induction stdin as [|answer rest IH]; cbn [asked]; [done|].
  destruct (settles answer).
  - cbn [emitted]. unfold settled, fixing, correction.
    by destruct (isYes lib answer).
  - unfold prepend. cbn [emitted]. by rewrite presented_app, IH.
Qed.

Lemma mutated_asked lib this pr milestone stdin :
  mutated (emitted (asked lib this pr milestone stdin)) `sublist_of` [Pr.id pr].
Proof.
  induction stdin as [|answer rest IH]; cbn [asked].
  - by apply sublist_nil_l.
  - destruct (settles answer).
    + cbn [emitted]. unfold settled, fixing, correction.
      destruct (isYes lib answer); simpl; [done|by apply sublist_nil_l].
    + unfold prepend. cbn [emitted]. by rewrite mutated_app.
Qed.

Lemma presented_validate lib this branch pr stdin :
  presented (emitted (validate lib this branch pr stdin)) = [pr].
Proof.
  rewrite validate_expected. unfold prepend. cbn [emitted].
  rewrite presented_app, presented_classification.
  set (milestone := expected_milestone _ _ _).
  destruct (decide (Some (Pr.milestone pr) = milestone)) as [Heq|Hne].
  { by rewrite makeValidateMilestone_correct. }
  destruct (prompt this) eqn:Hprompt.
  - rewrite makeValidateMilestone_prompt by done. unfold prepend. cbn [emitted].
    by rewrite presented_app, presented_asked.
  - rewrite makeValidateMilestone_no_prompt by done. cbn [emitted].
    rewrite presented_app. unfold settled, fixing, correction.
    by destruct (isYes lib "y").
Qed.

Lemma mutated_validate lib this branch pr stdin :
  mutated (emitted (validate lib this branch pr stdin)) `sublist_of` [Pr.id pr]
  ∧ (Some (Pr.milestone pr)
     = expected_milestone lib branch (message (Pr.mergeCommit pr)) →
     mutated (emitted (validate lib this branch pr stdin)) = []).
Proof.
  rewrite validate_expected. unfold prepend. cbn [emitted].
  rewrite mutated_app, mutated_classification.
  set (milestone := expected_milestone _ _ _).
  destruct (decide (Some (Pr.milestone pr) = milestone)) as [Heq|Hne].
  { rewrite makeValidateMilestone_correct by done.
    split; [by apply sublist_nil_l|done]. }
  split; [|done].
  destruct (prompt this) eqn:Hprompt.
  - rewrite makeValidateMilestone_prompt by done. unfold prepend. cbn [emitted].
    rewrite mutated_app. apply mutated_asked.
  - rewrite makeValidateMilestone_no_prompt by done. cbn [emitted].
    rewrite mutated_app. unfold settled, fixing, correction.
    destruct (isYes lib "y"); simpl; [done|by apply sublist_nil_l].
Qed.

(** What a sequence emits is what its first part emits, followed by what
    the rest emits if the first part returns. *)
Lemma bind_emitted {A B} (m : M A) (k : A → M B) stdin :
  (∃ a, outcome (m stdin) = Returned a
        ∧ outcome (bind m k stdin) = outcome (k a (unread (m stdin)))
        ∧ emitted (bind m k stdin)
          = emitted (m stdin) ++ emitted (k a (unread (m stdin))))
  ∨ ((∀ b, outcome (bind m k stdin) ≠ Returned b)
     ∧ emitted (bind m k stdin) = emitted (m stdin)).
Proof.
  unfold bind. destruct (m stdin) as [[a|code|error| |] es rest]; simpl.
  - left. by exists a.
  - by right.
  - by right.
  - by right.
  - by right.
Qed.

Lemma for_of_presented lib this branch prs stdin :
  presented (emitted (for_of prs (validate lib this branch) stdin))
    `prefix_of` prs
  ∧ (outcome (for_of prs (validate lib this branch) stdin) = Returned tt →
     presented (emitted (for_of prs (validate lib this branch) stdin)) = prs).
Proof.
  revert stdin. induction prs as [|pr prs IH]; intros stdin; [done|].
  cbn [for_of].
  destruct (bind_emitted (validate lib this branch pr)
              (λ _, for_of prs (validate lib this branch)) stdin)
    as [([] & _ & -> & ->)|[Hstop ->]].
  - rewrite presented_app, presented_validate.
    destruct (IH (unread (validate lib this branch pr stdin))) as [IH1 IH2].
    split; [by apply prefix_cons|]. intros Hend. by rewrite IH2.
  - rewrite presented_validate. split.
    + apply prefix_cons, prefix_nil.
    + intros Hend. by destruct (Hstop tt).
Qed.

(** X5.  The pull requests are presented in the order in which they
    were collected (milestone by milestone, in the order of the lists),
    each at most once and without gaps; a run that returns has presented
    every collected pull request exactly once. *)
Theorem presented_in_order lib host prompt' stdin :
  presented (emitted (handler lib host prompt' stdin))
    `prefix_of` collected host
  ∧ (outcome (handler lib host prompt' stdin) = Returned tt →
     presented (emitted (handler lib host prompt' stdin))
     = collected host).
Proof.
  destruct (handler_path lib host prompt' stdin) as
    [| | | | | |answer rest prs Hclear Hanswer Hprs];
    try (split; [apply prefix_nil|done]).
  unfold prepend, collected. rewrite Hprs. cbn [emitted outcome default].
  rewrite presented_app, presented_before_loop. apply for_of_presented.
Qed.

Lemma for_of_mutated lib this branch prs stdin :
  mutated (emitted (for_of prs (validate lib this branch) stdin))
    `sublist_of`
    (Pr.id <$>
       filter (λ pr, Some (Pr.milestone pr)
                     ≠ expected_milestone lib branch (message (Pr.mergeCommit pr)))
         prs).
Proof.
  revert stdin. induction prs as [|pr prs IH]; intros stdin; [done|].
  cbn [for_of].
  destruct (mutated_validate lib this branch pr stdin) as [Hone Hnone].
  assert (mutated (emitted (validate lib this branch pr stdin))
            `sublist_of`
            (Pr.id <$>
               filter (λ pr, Some (Pr.milestone pr)
                             ≠ expected_milestone lib branch
                                 (message (Pr.mergeCommit pr)))
                 [pr])) as Hhead.
  { rewrite filter_cons. destruct (decide (_ ≠ _)) as [Hne|Heq%dec_stable];
      [done|]. by rewrite Hnone. }
  change (pr :: prs) with ([pr] ++ prs). rewrite filter_app, fmap_app.
  destruct (bind_emitted (validate lib this branch pr)
              (λ _, for_of prs (validate lib this branch)) stdin)
    as [([] & _ & _ & ->)|[_ ->]].
  - rewrite mutated_app. by apply sublist_app.
  - rewrite <- (right_id_L [] (++) (mutated _)).
    apply sublist_app; [done|apply sublist_nil_l].
Qed.

Lemma mutated_quiet lib this branch prs :
  mutated (flat_map (quiet lib this branch) prs)
  = if isYes lib "y"
    then Pr.id <$>
           filter (λ pr, Some (Pr.milestone pr)
                         ≠ expected_milestone lib branch
                             (message (Pr.mergeCommit pr)))
             prs
    else [].
Proof.
  induction prs as [|pr prs IH]; [by destruct (isYes lib "y")|].
  cbn [flat_map]. rewrite mutated_app, IH, filter_cons. unfold quiet.
  rewrite mutated_app, mutated_classification.
  destruct (decide (Some (Pr.milestone pr) = _)) as [Heq|Hne].
  - rewrite decide_False by (by intros []). by destruct (isYes lib "y").
  - rewrite decide_True by done. rewrite mutated_app.
    unfold settled, fixing, correction. by destruct (isYes lib "y").
Qed.

(** X6.  Mutations are issued in the order of collection, at most one
    for each pull request, and only for pull requests whose milestone is
    not the expected one.  With the prompt flag off, a review that is not
    declined issues exactly one mutation for each of them if
    [isYes('y')] holds, and none at all otherwise. *)
Theorem mutations_in_order lib host prompt' stdin :
  let wrong :=
    filter (λ pr, Some (Pr.milestone pr)
                  ≠ expected_milestone lib (getReleaseBranch lib)
                      (message (Pr.mergeCommit pr)))
      (collected host) in
  mutated (emitted (handler lib host prompt' stdin))
    `sublist_of` (Pr.id <$> wrong)
  ∧ (prompt' = false →
     outcome (handler lib host prompt' stdin) = Returned tt →
     mutated (emitted (handler lib host prompt' stdin))
     = if isYes lib "y" then Pr.id <$> wrong else []).
Proof.
  intros wrong. subst wrong.
  destruct (handler_path lib host prompt' stdin) as
    [| | | | | |answer rest prs Hclear Hanswer Hprs];
    try (split; [apply sublist_nil_l|done]).
  unfold prepend, collected. rewrite Hprs. cbn [emitted outcome default].
  rewrite mutated_app, mutated_before_loop. split.
  - apply for_of_mutated.
  - intros -> _. rewrite for_of_quiet by done. apply mutated_quiet.
Qed.

(** *** The dictionary *)

(** Assignments never change what is read under ["__proto__"]. *)
Lemma titles_to_ids_proto (milestones : list Milestone.t) :
  titles_to_ids milestones !! "__proto__" = Some (Js.Inherited "__proto__").
Proof.
  induction milestones as [|last milestones IH] using rev_ind; [done|].
  rewrite titles_to_ids_snoc, set_lookup.
  destruct (decide (_ ∧ _)) as [[Htitle Hproto]|_]; [|done].
  by destruct Hproto.
Qed.

(** What is read and is no stored string is a property inherited from
    [Object.prototype], read under its own name. *)
Lemma titles_to_ids_inherited (milestones : list Milestone.t)
    (key name : string) :
  titles_to_ids milestones !! key = Some (Js.Inherited name) →
  name = key ∧ key ∈ Js.Object_prototype.
Proof.
  induction milestones as [|last milestones IH] using rev_ind.
  { unfold titles_to_ids. simpl. rewrite empty_object_lookup.
    destruct (decide (key ∈ Js.Object_prototype)) as [Hin|_]; [|done].
    by intros [= <-]. }
  rewrite titles_to_ids_snoc, set_lookup.
  destruct (decide (_ ∧ _)) as [_|_]; [done|exact IH].
Qed.



Lemma reconciles_mutation this pr milestone pullRequestId milestoneId :
  reconciles this pr milestone
    (Graphql (milestonePullRequest pullRequestId milestoneId)) →
  pullRequestId = Pr.id pr
  ∧ milestoneId = milestoneTitlesToIds this !! Js.toPropertyKey milestone.
Proof.
  remember (Graphql (milestonePullRequest pullRequestId milestoneId)) as e eqn:He.
  intros Hrec. destruct Hrec; try discriminate He.
  unfold correction in He. by simplify_eq.
Qed.

Lemma validates_mutation lib this branch pr pullRequestId milestoneId :
  validates lib this branch pr
    (Graphql (milestonePullRequest pullRequestId milestoneId)) →
  pullRequestId = Pr.id pr
  ∧ milestoneId
    = milestoneTitlesToIds this
      !! Js.toPropertyKey
           (expected_milestone lib branch (message (Pr.mergeCommit pr))).
Proof.
  remember (Graphql (milestonePullRequest pullRequestId milestoneId)) as e eqn:He.
  intros Hval. destruct Hval as [| | |e' Hrec]; try discriminate He. subst e'.
  by apply reconciles_mutation.
Qed.

(** X8.  The milestone id a mutation carries is what the dictionary reads
    under the expected milestone of the pull request it names, which is a
    collected one.  If that is a string, it is the id of a fetched
    milestone that is not titled "chore" and whose title is the expected
    milestone.  Otherwise it is undefined, or, when the expected milestone
    is the name of a property every object inherits (["constructor"],
    ["toString"], ...), that inherited property and no milestone id. *)
Theorem mutation_milestone_fetched lib host prompt' stdin pullRequestId milestoneId :
  Graphql (milestonePullRequest pullRequestId milestoneId)
  ∈ emitted (handler lib host prompt' stdin) →
  ∃ pr, pr ∈ collected host
        ∧ pullRequestId = Pr.id pr
        ∧ let expected :=
            Js.toPropertyKey
              (expected_milestone lib (getReleaseBranch lib)
                 (message (Pr.mergeCommit pr))) in
          match milestoneId with
          | Some (Js.Str id') =>
              ∃ node, node ∈ milestones_nodes host
                      ∧ Milestone.title node ≠ "chore"
                      ∧ Milestone.title node = expected
                      ∧ Milestone.id node = id'
          | Some (Js.Inherited name) =>
              name = expected ∧ name ∈ Js.Object_prototype
          | None =>
              (expected ∉ Js.Object_prototype)
              ∧ ∀ node, node ∈ milestones_nodes host →
                        Milestone.title node = expected →
                        expected = "chore"
          end.
Proof.
  intros Hin.
  pose proof (handler_events lib host prompt' stdin) as Hall.
  rewrite Forall_forall in Hall.
  destruct (Hall _ Hin) as [[]|(pr & Hpr & Hval)].
  apply validates_mutation in Hval as [-> Hid].
  exists pr. split; [done|]. split; [done|]. cbn zeta.
  set (expected := Js.toPropertyKey _) in *. symmetry in Hid.
  change (milestoneTitlesToIds (bound host prompt'))
    with (titles_to_ids (without_chore (milestones_nodes host))) in Hid.
  destruct milestoneId as [[id'|name]|].
  - apply titles_to_ids_found in Hid as (_ & node & Hnode & Htitle & Hid).
    apply elem_of_without_chore in Hnode as [Hnode Hchore].
    by exists node.
  - apply titles_to_ids_inherited in Hid as [-> Hname]. by split.
  - split.
    + intros Hname.
      destruct (decide (expected ∈ Milestone.title
                                     <$> without_chore (milestones_nodes host)))
        as [Htitled|Huntitled].
      * apply list_elem_of_fmap in Htitled as (node & Htitle & Hnode).
        destruct (decide (Milestone.title node = "__proto__")) as [Hproto|Hproto].
        { rewrite Htitle, Hproto, titles_to_ids_proto in Hid. discriminate Hid. }
        destruct (titles_to_ids_stored _ node Hnode Hproto) as (id' & Hstored).
        rewrite <- Htitle, Hid in Hstored. discriminate Hstored.
      * rewrite titles_to_ids_untitled, decide_True in Hid by done.
        discriminate Hid.
    + intros node Hnode Htitle.
      destruct (decide (expected = "chore")) as [|Hchore]; [done|].
      assert (node ∈ without_chore (milestones_nodes host)) as Hkept.
      { apply elem_of_without_chore. split; [done|]. by rewrite Htitle. }
      destruct (decide (Milestone.title node = "__proto__")) as [Hproto|Hproto].
      { rewrite <- Htitle, Hproto, titles_to_ids_proto in Hid. discriminate Hid. }
      destruct (titles_to_ids_stored _ node Hkept Hproto) as (id' & Hstored).
      rewrite Htitle, Hid in Hstored. discriminate Hstored.
Qed.

Lemma mutation_milestone_fetched_witness :
  ∃ pr, pr ∈ collected
               (Sample.host (Some "token") 0
                  [Sample.v3_4_0 false [Sample.pr1]; Sample.v3_5_0 false []])
        ∧ "PR_1" = Pr.id pr
        ∧ ∃ node, node ∈ [Sample.v3_4_0 false [Sample.pr1]; Sample.v3_5_0 false []]
                  ∧ Milestone.title node ≠ "chore"
                  ∧ Milestone.title node
                    = Js.toPropertyKey
                        (expected_milestone Sample.lib (getReleaseBranch Sample.lib)
                           (message (Pr.mergeCommit pr)))
                  ∧ Milestone.id node = "MI_350".
Proof.
  apply (mutation_milestone_fetched Sample.lib
           (Sample.host (Some "token") 0
              [Sample.v3_4_0 false [Sample.pr1]; Sample.v3_5_0 false []])
           false ["y"] "PR_1" (Some (Js.Str "MI_350"))).
  rewrite (handler_reviewed _ _ _ _ _ [Sample.pr1_in_v3_4_0]);
    [|by repeat split|discriminate|reflexivity].
  simpl. do 14 right. left.
Defined.

(** On the release branch release/major/constructor the expected
    milestone of a pull request found there is "constructor": the
    mutation the handler sends carries the inherited property. *)
Example inherited_name_review :
  Graphql (milestonePullRequest "PR_1" (Some (Js.Inherited "constructor")))
  ∈ emitted
      (handler
         {| isYes := isYes Sample.lib;
            sanitizeMessage := sanitizeMessage Sample.lib;
            isCommitInRef := isCommitInRef Sample.lib;
            getReleaseBranch := "release/major/constructor";
            releaseCommits := releaseCommits Sample.lib |}
         (Sample.host (Some "token") 0 [Sample.v3_4_0 false [Sample.pr1]])
         false ["y"]).
Proof.
  rewrite (handler_reviewed _ _ _ _ _ [Sample.pr1_in_v3_4_0]);
    [|by repeat split|discriminate|reflexivity].
  simpl. do 14 right. left.
Qed.

(** *** Answers that open the pull request *)

Lemma asked_opens lib this pr milestone opens stdin :
  Forall (λ answer, answer = "open" ∨ answer = "o") opens →
  asked lib this pr milestone (opens ++ stdin)
  = prepend (openings pr (length opens)) (asked lib this pr milestone stdin).
Proof.
  induction 1 as [|answer opens Hopen _ IH]; simpl.
  - by rewrite prepend_nil.
  - rewrite (proj2 (settles_false answer)) by done.
    rewrite IH, prepend_prepend. reflexivity.
Qed.

(** X9.  While the operator answers ["open"] or ["o"], the pull request
    is opened once for each answer and the question is asked again; the
    first other answer settles the pull request as if it had been given
    at once, and the answers after it are left unread.  If only such
    answers were typed, the script is left waiting at the question. *)
Theorem repeated_open lib this pr milestone opens :
  Some (Pr.milestone pr) ≠ milestone →
  prompt this = true →
  Forall (λ answer, answer = "open" ∨ answer = "o") opens →
  let shown := [ConsoleLog Blank; ConsoleLog (ShouldBeMilestoned pr milestone false)] in
  makeValidateMilestone lib this pr milestone opens
  = mkRun AwaitingInput
      (shown ++ openings pr (length opens) ++ [ok_to_fix]) []
  ∧ ∀ answer rest,
      answer ≠ "open" → answer ≠ "o" →
      makeValidateMilestone lib this pr milestone (opens ++ answer :: rest)
      = mkRun (Returned tt)
          (shown ++ openings pr (length opens)
           ++ ok_to_fix
              :: (if isYes lib answer
                  then [ConsoleLog (Fixing pr milestone);
                        Graphql (milestonePullRequest (Pr.id pr)
                                   (milestoneTitlesToIds this
                                    !! Js.toPropertyKey milestone))]
                  else [])
              ++ [ConsoleLog Done])
          rest.
Proof.
  intros Hne Hprompt Hopens shown. split.
  - rewrite makeValidateMilestone_prompt by done.
    rewrite <- (right_id_L [] (++) opens) at 1.
    by rewrite asked_opens.
  - intros answer rest Ho1 Ho2.
    rewrite makeValidateMilestone_prompt, asked_opens by done.
    cbn [asked]. by rewrite (proj2 (settles_true answer)).
Qed.

Lemma repeated_open_witness :
  makeValidateMilestone Sample.lib (Sample.this true [Sample.v3_5_0 false []])
    Sample.pr1_in_v3_4_0 (Some "v3.5.0") ["o"; "open"; "y"; "n"]
  = mkRun (Returned tt)
      [ConsoleLog Blank;
       ConsoleLog (ShouldBeMilestoned Sample.pr1_in_v3_4_0 (Some "v3.5.0") false);
       ok_to_fix; OpenPull 1; ok_to_fix; OpenPull 1; ok_to_fix;
       ConsoleLog (Fixing Sample.pr1_in_v3_4_0 (Some "v3.5.0"));
       Graphql (milestonePullRequest "PR_1" (Some (Js.Str "MI_350")));
       ConsoleLog Done]
      ["n"].
Proof.
  refine (proj2 (repeated_open Sample.lib
                   (Sample.this true [Sample.v3_5_0 false []])
                   Sample.pr1_in_v3_4_0 (Some "v3.5.0") ["o"; "open"] _ _ _)
            "y" ["n"] _ _); try discriminate; try reflexivity.
  repeat constructor; by auto.
Defined.

(** *** A release branch without a version segment *)

(** X13.  When the name of the release branch has fewer than three
    components, a pull request found on the release branch is never
    reported ok: the expected milestone is undefined, and the fix looks
    the milestone id up under the key "undefined". *)
Theorem no_version_segment lib this branch pr stdin :
  Js.split "/" branch !! 2%nat = None →
  message (Pr.mergeCommit pr) ∈ message <$> releaseCommits lib →
  let shown := [ConsoleLog separator; GetReleaseCommits; ConsoleLog Blank;
                ConsoleLog (ShouldBeMilestoned pr None false)] in
  shown `prefix_of` emitted (validate lib this branch pr stdin)
  ∧ (prompt this = false → isYes lib "y" = true →
     validate lib this branch pr stdin
     = mkRun (Returned tt)
         (shown ++ [ConsoleLog (Fixing pr None);
                    Graphql (milestonePullRequest (Pr.id pr)
                               (milestoneTitlesToIds this !! "undefined"));
                    ConsoleLog Done])
         stdin).
Proof.
  intros Hshort Hin shown. rewrite validate_expected.
  unfold classification, expected_milestone.
  rewrite !decide_True by done. rewrite Hshort.
  destruct (prompt this) eqn:Hprompt.
  - rewrite makeValidateMilestone_prompt by done. split; [|done].
    unfold prepend. cbn [emitted]. by eexists.
  - rewrite makeValidateMilestone_no_prompt by done. split.
    + unfold prepend. cbn [emitted]. by eexists.
    + intros _ Hyes. unfold settled, fixing, correction. by rewrite Hyes.
Qed.

Lemma no_version_segment_witness :
  validate
    {| isYes := isYes Sample.lib;
       sanitizeMessage := sanitizeMessage Sample.lib;
       isCommitInRef := isCommitInRef Sample.lib;
       getReleaseBranch := "main";
       releaseCommits := releaseCommits Sample.lib |}
    (Sample.this false [Sample.v3_4_0 false []])
    "main" Sample.pr1_in_v3_4_0 []
  = mkRun (Returned tt)
      [ConsoleLog separator; GetReleaseCommits; ConsoleLog Blank;
       ConsoleLog (ShouldBeMilestoned Sample.pr1_in_v3_4_0 None false);
       ConsoleLog (Fixing Sample.pr1_in_v3_4_0 None);
       Graphql (milestonePullRequest "PR_1" None);
       ConsoleLog Done]
      [].
Proof.
  refine (proj2 (no_version_segment _ (Sample.this false [Sample.v3_4_0 false []])
                   "main" Sample.pr1_in_v3_4_0 [] _ _) _ _);
    try reflexivity.
  left.
Defined.

(** *** The second test of the classification *)

Lemma for_of_emitted {A} (body : A → M unit) xs stdin e :
  e ∈ emitted (for_of xs body stdin) →
  ∃ x stdin', x ∈ xs ∧ e ∈ emitted (body x stdin').
Proof.
  revert stdin. induction xs as [|x xs IH]; intros stdin; cbn [for_of].
  { intros []%elem_of_nil. }
  destruct (bind_emitted (body x) (λ _, for_of xs body) stdin)
    as [([] & _ & _ & ->)|[_ ->]].
  - intros [Hhere|Hlater]%elem_of_app.
    + exists x, stdin. split; [left|done].
    + apply IH in Hlater as (y & stdin' & Hy & He).
      exists y, stdin'. split; [by right|done].
  - intros Hhere. exists x, stdin. split; [left|done].
Qed.

Lemma reconciles_not_a_test this pr milestone ref message' :
  ¬ reconciles this pr milestone (IsCommitInRef ref message').
Proof.
  remember (IsCommitInRef ref message') as e eqn:He.
  intros Hrec. destruct Hrec; discriminate He.
Qed.

(** X14.  [isCommitInRef] is only ever asked about the branch [next],
    with the sanitized first line of a collected pull request, and only
    when that line is not the message of a commit of the release branch:
    the second test is skipped whenever the first succeeds. *)
Theorem next_asked_when_needed lib host prompt' stdin ref message' :
  IsCommitInRef ref message' ∈ emitted (handler lib host prompt' stdin) →
  ref = "next"
  ∧ ∃ pr, pr ∈ collected host
          ∧ message' = sanitizeMessage lib (message (Pr.mergeCommit pr))
          ∧ message (Pr.mergeCommit pr) ∉ message <$> releaseCommits lib.
Proof.
  destruct (handler_path lib host prompt' stdin) as
    [| | | | | |answer rest prs Hclear Hanswer Hprs]; cbn [emitted].
  1-6: intros Hin;
       try apply elem_of_app in Hin as [Hin|Hin];
       repeat (apply elem_of_cons in Hin as [Hin|Hin]; [discriminate Hin|]);
       by apply elem_of_nil in Hin.
  unfold prepend. cbn [emitted]. intros [Hin|Hin]%elem_of_app.
  { repeat (apply elem_of_cons in Hin as [Hin|Hin]; [discriminate Hin|]).
    by apply elem_of_nil in Hin. }
  apply for_of_emitted in Hin as (pr & stdin' & Hpr & Hin).
  rewrite validate_expected in Hin. unfold prepend in Hin. cbn [emitted] in Hin.
  apply elem_of_app in Hin as [Hin|Hin].
  - unfold classification in Hin.
    destruct (decide (_ ∈ _)) as [Hrelease|Hrelease].
    + repeat (apply elem_of_cons in Hin as [Hin|Hin]; [discriminate Hin|]).
      by apply elem_of_nil in Hin.
    + repeat (apply elem_of_cons in Hin as [Hin|Hin]; [try discriminate Hin|]);
        [|by apply elem_of_nil in Hin].
      injection Hin as -> ->. split; [done|]. exists pr.
      unfold collected. by rewrite Hprs.
  - pose proof (makeValidateMilestone_reconciles lib (bound host prompt') pr
                  (expected_milestone lib (getReleaseBranch lib)
                     (message (Pr.mergeCommit pr))) stdin') as Hall.
    rewrite Forall_forall in Hall. apply Hall in Hin.
    by apply reconciles_not_a_test in Hin.
Qed.

Lemma next_asked_when_needed_witness :
  "feat: b (#2)" ∉ message <$> releaseCommits Sample.lib.
Proof.
  destruct (next_asked_when_needed Sample.lib
              (Sample.host (Some "token") 0 [Sample.v3_5_0 false [Sample.pr2]])
              false ["y"] "next" "feat: b (#2)")
    as (_ & pr & Hpr & _ & Hout).
  - rewrite (handler_reviewed _ _ _ _ _ [Sample.pr2_in_v3_5_0]);
      [|by repeat split|discriminate|reflexivity].
    simpl. do 11 right. left.
  - apply list_elem_of_singleton in Hpr as ->. exact Hout.
Defined.

(** *** What a mutation presupposes *)

(** X15.  No mutation is issued unless the three guards were passed and
    the operator answered the review question with something other than
    ["n"]. *)
Theorem mutations_after_guards lib host prompt' stdin :
  mutated (emitted (handler lib host prompt' stdin)) ≠ [] →
  Js.truthy (GITHUB_TOKEN host) = true
  ∧ ¬ 0 < openCherryPickPRs_totalCount host
  ∧ has_next_page (without_chore (milestones_nodes host)) = false
  ∧ ∃ answer rest, stdin = answer :: rest ∧ answer ≠ "n".
Proof.
  destruct (handler_path lib host prompt' stdin) as
    [| | | | | |answer rest prs (Htoken & Hcount & Hmore) Hanswer Hprs];
    try done.
  intros _. repeat split; try done. by exists answer, rest.
Qed.

Lemma mutations_after_guards_witness :
  ∃ answer rest, ["y"] = answer :: rest ∧ answer ≠ "n".
Proof.
  apply (mutations_after_guards Sample.lib
           (Sample.host (Some "token") 0 [Sample.v3_4_0 false [Sample.pr1]])
           false ["y"]).
  rewrite (handler_reviewed _ _ _ _ _ [Sample.pr1_in_v3_4_0]);
    [|by repeat split|discriminate|reflexivity].
  discriminate.
Defined.

Lemma affirmed_cons lib answer rest :
  affirmed lib (answer :: rest)
  = ((if (settles answer && isYes lib answer)%bool then 1 else 0)
     + affirmed lib rest)%nat.
Proof.
  unfold affirmed. rewrite filter_cons.
  destruct (decide (settles answer = true ∧ isYes lib answer = true))
    as [[-> ->]|Hnot]; [done|].
  destruct (settles answer), (isYes lib answer); try done.
  by destruct Hnot.
Qed.

Lemma asked_affirmed lib this pr milestone stdin :
  (length (mutated (emitted (asked lib this pr milestone stdin)))
   + affirmed lib (unread (asked lib this pr milestone stdin))
   ≤ affirmed lib stdin)%nat.
Proof.
  induction stdin as [|answer rest IH]; cbn [asked]; [done|].
  rewrite affirmed_cons. destruct (settles answer); simpl.
  - unfold settled, fixing, correction. by destruct (isYes lib answer).
  - unfold prepend in *. simpl in *. lia.
Qed.

Lemma validate_affirmed lib this branch pr stdin :
  prompt this = true →
  (length (mutated (emitted (validate lib this branch pr stdin)))
   + affirmed lib (unread (validate lib this branch pr stdin))
   ≤ affirmed lib stdin)%nat.
Proof.
  intros Hprompt. rewrite validate_expected. unfold prepend.
  cbn [emitted unread]. rewrite mutated_app, mutated_classification.
  set (milestone := expected_milestone _ _ _).
  destruct (decide (Some (Pr.milestone pr) = milestone)) as [Heq|Hne].
  { by rewrite makeValidateMilestone_correct. }
  rewrite makeValidateMilestone_prompt by done. unfold prepend.
  cbn [emitted unread]. rewrite mutated_app. apply asked_affirmed.
Qed.

Lemma bind_unread {A B} (m : M A) (k : A → M B) stdin a :
  outcome (m stdin) = Returned a →
  unread (bind m k stdin) = unread (k a (unread (m stdin))).
Proof. intros Hm. unfold bind. by rewrite Hm. Qed.

Lemma for_of_affirmed lib this branch prs stdin :
  prompt this = true →
  (length (mutated (emitted (for_of prs (validate lib this branch) stdin)))
   ≤ affirmed lib stdin)%nat.
Proof.
  intros Hprompt. revert stdin.
  induction prs as [|pr prs IH]; intros stdin; cbn [for_of]; [simpl; lia|].
  pose proof (validate_affirmed lib this branch pr stdin Hprompt) as Hpr.
  destruct (bind_emitted (validate lib this branch pr)
              (λ _, for_of prs (validate lib this branch)) stdin)
    as [([] & _ & _ & ->)|[_ ->]].
  - rewrite mutated_app, length_app.
    specialize (IH (unread (validate lib this branch pr stdin))). lia.
  - lia.
Qed.

(** X16.  With the prompt flag on, every mutation answers to an
    affirmative reply of the operator: a run issues at most as many
    mutations as there are replies after the first that are affirmative
    and neither ["open"] nor ["o"].  In particular nothing is mutated
    when the operator affirms nothing. *)
Theorem mutations_need_consent lib host stdin :
  (length (mutated (emitted (handler lib host true stdin)))
   ≤ affirmed lib (tail stdin))%nat.
Proof.
  destruct (handler_path lib host true stdin) as
    [| | | | | |answer rest prs Hclear Hanswer Hprs]; try (simpl; lia).
  unfold prepend. cbn [emitted tail].
  rewrite mutated_app, mutated_before_loop. by apply for_of_affirmed.
Qed.

Example declining_every_fix :
  mutated
    (emitted
       (handler Sample.lib
          (Sample.host (Some "token") 0
             [Sample.v3_4_0 false [Sample.pr1; Sample.pr2]])
          true ["y"; "n"; "o"; "n"]))
  = [].
Proof. by vm_compute. Qed.

End ValidateMilestonesRuns.
